(** * pm-monitor-data: the update script and the credential bootstrap

    A shallow embedding of [update_json.py] and [authenticate.py].  The
    script is sequential orchestration over four external parties: the
    process environment and clock, the local file system, the Earth Engine
    service and the GitHub repository.  Their answers are gathered in a
    [world]; what the script does to them is recorded in a [state] that is
    threaded through every call. *)

From Stdlib Require Import ZArith String Ascii List PrimFloat Lia.
From stdpp Require Import base option list gmap strings.

Set Warnings "-inexact-float,-register-all,-abstract-large-number".
Set Default Proof Using "Type".

(** ** Python values *)

(** What [json.load] produces and [json.dump] accepts. *)
Inductive json : Type :=
| JNull
| JBool (b : bool)
| JInt (n : Z)
| JNum (x : float)
| JStr (s : string)
| JArr (items : list json)
| JObj (fields : list (string * json)).

(** A Python dict with string keys, in insertion order. *)
Definition dict (V : Type) : Type := list (string * V).

(** The subclasses of [Exception] the modelled calls raise.  Every handler
    of the script is [except Exception], which catches all of them. *)
Inductive exn_class : Type :=
| FileNotFoundError
| PermissionError
| JSONDecodeError
| AttributeError
| KeyError
| RuntimeError
| EEException
| GithubException.

Record exn : Type := Exn { exn_kind : exn_class; exn_msg : string }.

Inductive outcome (A : Type) : Type :=
| Ret (a : A)
| Raise (e : exn).

Arguments Ret {A} a.
Arguments Raise {A} e.

Module Py.

Definition type_name (v : json) : string :=
  match v with
  | JNull => "NoneType"
  | JBool _ => "bool"
  | JInt _ => "int"
  | JNum _ => "float"
  | JStr _ => "str"
  | JArr _ => "list"
  | JObj _ => "dict"
  end.

Definition is_list (v : json) : bool :=
  match v with JArr _ => true | _ => false end.

(** [d.get(k)]: the value stored under [k], if any. *)
Fixpoint get {V : Type} (d : dict V) (k : string) : option V :=
  match d with
  | [] => None
  | (k', v) :: d' => if String.eqb k' k then Some v else get d' k
  end.

(** [d[k]]: as [get], but a missing key raises [KeyError]. *)
Definition getitem {V : Type} (d : dict V) (k : string) : outcome V :=
  match get d k with
  | Some v => Ret v
  | None => Raise (Exn KeyError k)
  end.

(** [list(d.keys())]. *)
Definition keys {V : Type} (d : dict V) : list string := map fst d.

(** [bool(x)] for a value that is either [None] or a dict. *)
Definition truthy {V : Type} (x : option (dict V)) : bool :=
  match x with
  | None => false
  | Some [] => false
  | Some (_ :: _) => true
  end.

(** [l[start:]] for any integer [start]: a negative index counts from the
    end, and the result is clamped to the list. *)
Definition slice_from {A : Type} (start : Z) (l : list A) : list A :=
  let n := Z.of_nat (length l) in
  let i := if (start <? 0)%Z then Z.max (start + n) 0 else Z.min start n in
  drop (Z.to_nat i) l.

(** [v.append]: only a list has the method. *)
Definition append_method (v : json) : outcome (json -> list json) :=
  match v with
  | JArr items => Ret (fun x => items ++ [x])
  | _ => Raise (Exn AttributeError
                  ("'" +:+ type_name v +:+ "' object has no attribute 'append'"))
  end.

(** [os.path.basename]: what follows the last slash. *)
Fixpoint basename_from (acc s : string) : string :=
  match s with
  | EmptyString => acc
  | String c s' =>
      if Ascii.eqb c "/" then basename_from EmptyString s'
      else basename_from (acc +:+ String c EmptyString) s'
  end.

Definition basename (s : string) : string := basename_from EmptyString s.

(** [" ".join(parts)], the line a [print] with several arguments writes. *)
Fixpoint join (parts : list string) : string :=
  match parts with
  | [] => EmptyString
  | [p] => p
  | p :: ps => p +:+ " " +:+ join ps
  end.

End Py.

(** ** Wall-clock time *)

(** An aware [datetime] in UTC, as [datetime.now(timezone.utc)] returns. *)
Record datetime : Type := DateTime {
  year : nat; month : nat; day : nat;
  hour : nat; minute : nat; second : nat; microsecond : nat }.

Module Clock.

Definition digit (n : nat) : ascii :=
  match n mod 10 with
  | 0 => "0" | 1 => "1" | 2 => "2" | 3 => "3" | 4 => "4"
  | 5 => "5" | 6 => "6" | 7 => "7" | 8 => "8" | _ => "9"
  end%char.

(** [n] printed on [width] decimal digits, zero padded ([%0<width>d]). *)
Fixpoint digits (width n : nat) : string :=
  match width with
  | 0 => EmptyString
  | S w => String (digit (n / 10 ^ w)) (digits w n)
  end.

(** [datetime.isoformat()] of an aware UTC value: the fraction is printed
    only when the microseconds are not zero, and the offset always is. *)
Definition isoformat (t : datetime) : string :=
  digits 4 (year t) +:+ "-" +:+ digits 2 (month t) +:+ "-" +:+ digits 2 (day t)
  +:+ "T" +:+ digits 2 (hour t) +:+ ":" +:+ digits 2 (minute t)
  +:+ ":" +:+ digits 2 (second t)
  +:+ (if microsecond t =? 0 then EmptyString
       else "." +:+ digits 6 (microsecond t))
  +:+ "+00:00".

End Clock.

(** ** Earth Engine expressions

    The client library builds a description of the computation; nothing is
    evaluated before [getInfo] sends it to the service. *)
Module EE.

Inductive geometry : Type :=
| Point (lon lat : float)
| Buffer (g : geometry) (meters : Z).

Inductive date : Type :=
| Date (iso : string)
| Advance (d : date) (delta : Z) (unit : string).

Inductive image_collection : Type :=
| ImageCollection (id : string)
| Select (c : image_collection) (band : string)
| FilterBounds (c : image_collection) (g : geometry)
| FilterDate (c : image_collection) (start stop : date)
| Sort (c : image_collection) (property : string) (ascending : bool).

Record projection : Type := AtScale { crs : string; meters_per_pixel : Z }.

Inductive image : Type :=
| Mean (c : image_collection)
| First (c : image_collection)
| SetDefaultProjection (i : image) (p : projection).

Inductive reducer : Type := ReducerMean.

(** The arguments of one [reduceRegion] call. *)
Record reduce_region : Type := ReduceRegion {
  rr_image : image;
  rr_reducer : reducer;
  rr_geometry : geometry;
  rr_scale : Z;
  rr_bestEffort : bool;
  rr_maxPixels : float }.

(** What [getInfo] returns for a reduction: band name to value, where the
    service answers [null] for a band without pixels in the region. *)
Definition info : Type := dict (option float).

End EE.

(** ** The remote repository *)

Inductive text : Type :=
| Corrupt (raw : string)     (* bytes that are not a JSON document *)
| JsonText (v : json).       (* the serialisation of [v] *)

(** What [repo.get_contents] returns. *)
Record content_file : Type := ContentFile { cf_path : string; cf_sha : string }.

Inductive gh_call : Type :=
| GetRepo (name : string)
| GetContents (path : string)
| UpdateFile (path message : string) (content : text) (sha : string)
| CreateFile (path message : string) (content : text).

Definition publishes (c : gh_call) : bool :=
  match c with
  | UpdateFile _ _ _ _ | CreateFile _ _ _ => true
  | GetRepo _ | GetContents _ => false
  end.

(** ** The world and the run state *)

(** A local file: one the process may not open, or one with a content. *)
Inductive file : Type :=
| NoAccess
| Text (t : text).

(** Everything outside the program.  The services answer as a function of
    the calls made so far, so they may be stateful in any way. *)
Record world : Type := World {
  getenv : string -> option string;
  utcnow : nat -> datetime;
  ee_Initialize : outcome unit;
  ee_Initialize_credentials : string -> text -> outcome unit;
  ee_getInfo : list EE.reduce_region -> EE.reduce_region -> outcome EE.info;
  gh_get_repo : list gh_call -> string -> outcome unit;
  gh_get_contents : list gh_call -> string -> outcome content_file;
  gh_update_file :
    list gh_call -> string -> string -> text -> string -> outcome unit;
  gh_create_file : list gh_call -> string -> string -> text -> outcome unit }.

Record state : Type := State {
  fs : gmap string file;               (* the working directory *)
  ticks : nat;                         (* clock readings taken *)
  ee_log : list EE.reduce_region;      (* reductions sent, oldest first *)
  gh_log : list gh_call;               (* repository calls, oldest first *)
  stdout : list string }.              (* lines printed *)

(** A computation reads and updates the state and returns or raises; the
    effects made before a [Raise] stay. *)
Definition M (A : Type) : Type := state -> outcome A * state.

Definition ret {A : Type} (a : A) : M A := fun s => (Ret a, s).

Definition raise {A : Type} (e : exn) : M A := fun s => (Raise e, s).

Definition bind {A B : Type} (c : M A) (k : A -> M B) : M B :=
  fun s =>
    match c s with
    | (Ret a, s') => k a s'
    | (Raise e, s') => (Raise e, s')
    end.

(** [try: c  except Exception as e: h e]. *)
Definition try_except {A : Type} (c : M A) (h : exn -> M A) : M A :=
  fun s =>
    match c s with
    | (Ret a, s') => (Ret a, s')
    | (Raise e, s') => h e s'
    end.

Definition lift {A : Type} (o : outcome A) : M A := fun s => (o, s).

Notation "'let!' x ':=' c 'in' k" := (bind c (fun x => k))
  (at level 10, x name, c at level 100, k at level 200).
Notation "c ';;' k" := (bind c (fun _ => k))
  (at level 100, k at level 200, right associativity).

(** ** Primitive effects *)

Definition print (parts : list string) : M unit :=
  fun s => (Ret tt, State (fs s) (ticks s) (ee_log s) (gh_log s)
                          (stdout s ++ [Py.join parts])).

(** [open(path, "r")] followed by [fh.read()]. *)
Definition open_read (path : string) : M text :=
  fun s =>
    match fs s !! path with
    | None => (Raise (Exn FileNotFoundError path), s)
    | Some NoAccess => (Raise (Exn PermissionError path), s)
    | Some (Text t) => (Ret t, s)
    end.

(** [json.load] on the text read. *)
Definition json_load (t : text) : outcome json :=
  match t with
  | Corrupt _ => Raise (Exn JSONDecodeError "Expecting value")
  | JsonText v => Ret v
  end.

(** [with open(path, "w") as fh: json.dump(obj, fh, ...)]. *)
Definition open_write_dump (path : string) (obj : json) : M unit :=
  fun s =>
    match fs s !! path with
    | Some NoAccess => (Raise (Exn PermissionError path), s)
    | _ => (Ret tt, State (<[path := Text (JsonText obj)]> (fs s)) (ticks s)
                          (ee_log s) (gh_log s) (stdout s))
    end.

Section Script.

Variable w : world.

(** [datetime.datetime.now(datetime.timezone.utc)]. *)
Definition datetime_now : M datetime :=
  fun s => (Ret (utcnow w (ticks s)),
            State (fs s) (S (ticks s)) (ee_log s) (gh_log s) (stdout s)).

(** [rr.getInfo()]: the one call that reaches the service. *)
Definition getInfo (rr : EE.reduce_region) : M EE.info :=
  fun s => (ee_getInfo w (ee_log s) rr,
            State (fs s) (ticks s) (ee_log s ++ [rr]) (gh_log s) (stdout s)).

Definition log_gh (c : gh_call) : M unit :=
  fun s => (Ret tt, State (fs s) (ticks s) (ee_log s) (gh_log s ++ [c])
                          (stdout s)).

Definition get_repo (name : string) : M unit :=
  fun s => (gh_get_repo w (gh_log s) name, (log_gh (GetRepo name) s).2).

Definition get_contents (path : string) : M content_file :=
  fun s => (gh_get_contents w (gh_log s) path, (log_gh (GetContents path) s).2).

Definition update_file (path message : string) (content : text) (sha : string)
  : M unit :=
  fun s => (gh_update_file w (gh_log s) path message content sha,
            (log_gh (UpdateFile path message content sha) s).2).

Definition create_file (path message : string) (content : text) : M unit :=
  fun s => (gh_create_file w (gh_log s) path message content,
            (log_gh (CreateFile path message content) s).2).

(** ** CONFIG *)

Definition REPO_NAME : string := "Anfu4354/pm-monitor-data".
Definition OUT_DIR : string := "data".
Definition OUT_CURRENT : string := OUT_DIR +:+ "/current.json".
Definition OUT_ANNUAL_PM25 : string := OUT_DIR +:+ "/annual_pm25.json".
Definition OUT_ANNUAL_TEMP : string := OUT_DIR +:+ "/annual_temperature.json".
Definition OUT_HISTORY : string := OUT_DIR +:+ "/history.json".
Definition HISTORY_LOCAL : string := "history.json".

Definition LAT : float := 25.6866%float.
Definition LON : float := (-100.3161)%float.
Definition POINT : EE.geometry := EE.Point LON LAT.

Definition BUFFER_M : Z := 20000.
Definition REDUCE_SCALE : Z := 5000.
Definition HISTORY_MAX : Z := 200.

(** ** UTIL FUNCTIONS *)

Definition now_iso : M string :=
  let! t := datetime_now in
  ret (Clock.isoformat t +:+ "Z").

Definition safe_reduce_mean (img : EE.image) (geometry : EE.geometry)
    (scale : Z) : M (option EE.info) :=
  try_except
    (let proj := EE.AtScale "EPSG:4326" scale in
     let img2 := EE.SetDefaultProjection img proj in
     let rr := EE.ReduceRegion img2 EE.ReducerMean geometry scale true
                               1e13%float in
     let! d := getInfo rr in
     ret (Some d))
    (fun e =>
       print ["⚠ safe_reduce_mean failed:"; exn_msg e];;
       ret None).

(** ** 1) CURRENT (last 24h) *)

(** The block repeated after every reduction:
    [if sample: k = list(sample.keys())[0]; v = sample.get(k)],
    with [v] left at [None] when the sample is falsy. *)
Definition first_value (sample : option EE.info) : option float :=
  if Py.truthy sample then
    match sample with
    | Some d =>
        match Py.keys d with
        | k :: _ => mjoin (Py.get d k)
        | [] => None
        end
    | None => None
    end
  else None.

Definition cams_nrt (ee_24h ee_now : EE.date) : EE.image_collection :=
  EE.FilterDate
    (EE.FilterBounds
       (EE.Select (EE.ImageCollection "ECMWF/CAMS/NRT")
                  "particulate_matter_d_less_than_25_um_surface")
       (EE.Buffer POINT BUFFER_M))
    ee_24h ee_now.

Definition pm25_img_now (ee_24h ee_now : EE.date) : EE.image :=
  EE.Mean (cams_nrt ee_24h ee_now).

(** [v * 1e9 if v is not None else None]. *)
Definition pm25_now_ug (pm25_sample_now : option EE.info) : option float :=
  match first_value pm25_sample_now with
  | Some v => Some (PrimFloat.mul v 1e9%float)
  | None => None
  end.

Definition era5_hourly : EE.image_collection :=
  EE.FilterBounds
    (EE.Select (EE.ImageCollection "ECMWF/ERA5_LAND/HOURLY") "temperature_2m")
    (EE.Buffer POINT BUFFER_M).

Definition latest_temp_img : EE.image :=
  EE.First (EE.Sort era5_hourly "system:time_start" false).

(** [v - 273.15 if v is not None else None]. *)
Definition temp_now_c (temp_sample_now : option EE.info) : option float :=
  match first_value temp_sample_now with
  | Some v => Some (PrimFloat.sub v 273.15%float)
  | None => None
  end.

(** A Python float-or-None as [json.dump] writes it. *)
Definition number_or_null (x : option float) : json :=
  match x with
  | Some v => JNum v
  | None => JNull
  end.

Definition current_json (timestamp_utc : string)
    (pm25_now_ug temp_now_c : option float) : dict json :=
  [ ("timestamp_utc", JStr timestamp_utc);
    ("pm25_ugm3", number_or_null pm25_now_ug);
    ("temperature_c", number_or_null temp_now_c) ].

Definition section_current (ee_now : EE.date) : M (dict json) :=
  let ee_24h := EE.Advance ee_now (-1) "day" in
  let! pm25_sample_now :=
    safe_reduce_mean (pm25_img_now ee_24h ee_now) POINT REDUCE_SCALE in
  let! temp_sample_now :=
    safe_reduce_mean latest_temp_img POINT REDUCE_SCALE in
  let! ts := now_iso in
  ret (current_json ts (pm25_now_ug pm25_sample_now)
                    (temp_now_c temp_sample_now)).

(** ** 2) ANNUAL (last 365 days) *)

Definition cams_365 (ee_1y ee_now : EE.date) : EE.image_collection :=
  EE.FilterDate
    (EE.FilterBounds
       (EE.Select (EE.ImageCollection "ECMWF/CAMS/NRT")
                  "particulate_matter_d_less_than_25_um_surface")
       (EE.Buffer POINT BUFFER_M))
    ee_1y ee_now.

Definition cams_365_mean (ee_1y ee_now : EE.date) : EE.image :=
  EE.Mean (cams_365 ee_1y ee_now).

Definition annual_pm25_ug (annual_pm25_sample : option EE.info) : option float :=
  match first_value annual_pm25_sample with
  | Some v => Some (PrimFloat.mul v 1e9%float)
  | None => None
  end.

Definition annual_pm25_json (annual_pm25_ug : option float)
    (generated_utc : string) : dict json :=
  [ ("pm25_ugm3", number_or_null annual_pm25_ug);
    ("dataset", JStr "CAMS NRT (annual mean over last 365 days)");
    ("generated_utc", JStr generated_utc) ].

Definition era5_365 (ee_1y ee_now : EE.date) : EE.image_collection :=
  EE.FilterDate
    (EE.FilterBounds
       (EE.Select (EE.ImageCollection "ECMWF/ERA5_LAND/HOURLY")
                  "temperature_2m")
       (EE.Buffer POINT BUFFER_M))
    ee_1y ee_now.

Definition era5_365_mean (ee_1y ee_now : EE.date) : EE.image :=
  EE.Mean (era5_365 ee_1y ee_now).

Definition annual_temp_c (annual_temp_sample : option EE.info) : option float :=
  match first_value annual_temp_sample with
  | Some v => Some (PrimFloat.sub v 273.15%float)
  | None => None
  end.

Definition annual_temp_json (annual_temp_c : option float)
    (generated_utc : string) : dict json :=
  [ ("temperature_c", number_or_null annual_temp_c);
    ("dataset", JStr "ERA5-Land (annual mean over last 365 days)");
    ("generated_utc", JStr generated_utc) ].

Definition section_annual (ee_now : EE.date) : M (dict json * dict json) :=
  let ee_1y := EE.Advance ee_now (-365) "day" in
  let! annual_pm25_sample :=
    safe_reduce_mean (cams_365_mean ee_1y ee_now) POINT REDUCE_SCALE in
  let! generated_pm25 := now_iso in
  let! annual_temp_sample :=
    safe_reduce_mean (era5_365_mean ee_1y ee_now) POINT REDUCE_SCALE in
  let! generated_temp := now_iso in
  ret (annual_pm25_json (annual_pm25_ug annual_pm25_sample) generated_pm25,
       annual_temp_json (annual_temp_c annual_temp_sample) generated_temp).

(** ** 3) HISTORY (append & keep rolling) *)

Definition read_local_history (path : string) : M json :=
  try_except
    (let! t := open_read path in
     lift (json_load t))
    (fun _ => ret (JArr [])).

Definition append_history (local_path : string) (current_obj : dict json)
    (maxlen : Z) : M json :=
  let! hist := read_local_history local_path in
  let! append := lift (Py.append_method hist) in
  let! ts := lift (Py.getitem current_obj "timestamp_utc") in
  let! pm25 := lift (Py.getitem current_obj "pm25_ugm3") in
  let! temp := lift (Py.getitem current_obj "temperature_c") in
  let hist := append (JObj [("ts", ts); ("pm25", pm25); ("temp", temp)]) in
  let hist := Py.slice_from (- maxlen) hist in
  open_write_dump local_path (JArr hist);;
  ret (JArr hist).

(** ** 4) WRITE LOCAL FILES (temporary) *)

Definition write_local (fname : string) (obj : json) : M unit :=
  open_write_dump fname obj.

Definition section_write (current annual_pm25 annual_temp : dict json)
    (history_json : json) : M unit :=
  write_local "current.json" (JObj current);;
  write_local "annual_pm25.json" (JObj annual_pm25);;
  write_local "annual_temperature.json" (JObj annual_temp);;
  write_local HISTORY_LOCAL history_json;;
  print ["✓ Local files written"].

(** ** 5) UPLOAD TO GITHUB *)

(** [not TOKEN]: the variable is unset, or set to the empty string. *)
Definition not_token (TOKEN : option string) : bool :=
  match TOKEN with
  | None => true
  | Some EmptyString => true
  | Some (String _ _) => false
  end.

Definition upload_json (path_in_repo local_file : string) : M unit :=
  let! content := open_read local_file in
  try_except
    (let! contents := get_contents path_in_repo in
     update_file (cf_path contents)
                 ("Auto-update " +:+ Py.basename path_in_repo)
                 content (cf_sha contents);;
     print ["✓ Updated"; path_in_repo])
    (fun e =>
       try_except
         (create_file path_in_repo ("Create " +:+ Py.basename path_in_repo)
                      content;;
          print ["✓ Created"; path_in_repo])
         (fun e2 =>
            print ["✖ Failed to upload"; path_in_repo; ":"; exn_msg e2])).

Definition section_upload : M unit :=
  let TOKEN := getenv w "GITHUB_TOKEN" in
  (if not_token TOKEN
   then raise (Exn RuntimeError "GITHUB_TOKEN environment variable not set.")
   else ret tt);;
  get_repo REPO_NAME;;
  upload_json OUT_CURRENT "current.json";;
  upload_json OUT_ANNUAL_PM25 "annual_pm25.json";;
  upload_json OUT_ANNUAL_TEMP "annual_temperature.json";;
  upload_json OUT_HISTORY HISTORY_LOCAL;;
  print ["🎉 All files uploaded."].

(** ** The whole of [update_json.py] *)

Definition initialize_ee : M unit :=
  try_except
    (lift (ee_Initialize w);;
     print ["✓ EE initialized"])
    (fun e =>
       raise (Exn RuntimeError
          "❌ EE failed to initialize. Did you run authenticate.py locally?")).

Definition update_json : M unit :=
  initialize_ee;;
  let! now := datetime_now in
  let ee_now := EE.Date (Clock.isoformat now) in
  let! current := section_current ee_now in
  let! annual := section_annual ee_now in
  let! history := append_history HISTORY_LOCAL current HISTORY_MAX in
  section_write current annual.1 annual.2 history;;
  section_upload.

(** ** The whole of [authenticate.py] *)

Definition authenticate : M unit :=
  let! service_account :=
    lift (match getenv w "EE_SERVICE_ACCOUNT" with
          | Some v => Ret v
          | None => Raise (Exn KeyError "EE_SERVICE_ACCOUNT")
          end) in
  let! key := open_read "ee-key.json" in
  lift (ee_Initialize_credentials w service_account key);;
  print ["Earth Engine authentication successful."].

End Script.

(** ** Vocabulary of the statements *)

(** The request [safe_reduce_mean] sends for an image. *)
Definition reduction_of (img : EE.image) (geometry : EE.geometry) (scale : Z)
  : EE.reduce_region :=
  EE.ReduceRegion (EE.SetDefaultProjection img (EE.AtScale "EPSG:4326" scale))
                  EE.ReducerMean geometry scale true 1e13%float.

(** What [safe_reduce_mean] makes of the service's answer. *)
Definition sample_of (answer : outcome EE.info) : option EE.info :=
  match answer with
  | Ret d => Some d
  | Raise _ => None
  end.

(** A reduction brought no data: the call failed, the mapping is empty, or
    its first band is null. *)
Definition no_data (sample : option EE.info) : bool :=
  match sample with
  | None => true
  | Some [] => true
  | Some ((_, None) :: _) => true
  | Some ((_, Some _) :: _) => false
  end.

(** The regions the collections behind an image were filtered to. *)
Fixpoint collection_bounds (c : EE.image_collection) : list EE.geometry :=
  match c with
  | EE.ImageCollection _ => []
  | EE.Select c' _ => collection_bounds c'
  | EE.FilterBounds c' g => g :: collection_bounds c'
  | EE.FilterDate c' _ _ => collection_bounds c'
  | EE.Sort c' _ _ => collection_bounds c'
  end.

Fixpoint image_bounds (i : EE.image) : list EE.geometry :=
  match i with
  | EE.Mean c => collection_bounds c
  | EE.First c => collection_bounds c
  | EE.SetDefaultProjection i' _ => image_bounds i'
  end.

(** A reduction over the bare point, at the default scale, of rasters
    filtered to the buffered point. *)
Definition point_reduction (rr : EE.reduce_region) : Prop :=
  EE.rr_geometry rr = POINT ∧
  EE.rr_scale rr = REDUCE_SCALE ∧
  image_bounds (EE.rr_image rr) = [EE.Buffer POINT BUFFER_M].

(** The four uploads of the script: path in the repository, local file. *)
Definition uploads : list (string * string) :=
  [ (OUT_CURRENT, "current.json");
    (OUT_ANNUAL_PM25, "annual_pm25.json");
    (OUT_ANNUAL_TEMP, "annual_temperature.json");
    (OUT_HISTORY, HISTORY_LOCAL) ].

(** The four reductions of a run whose first clock reading is [now]. *)
Definition run_reductions (now : datetime) : list EE.reduce_region :=
  let ee_now := EE.Date (Clock.isoformat now) in
  let ee_24h := EE.Advance ee_now (-1) "day" in
  let ee_1y := EE.Advance ee_now (-365) "day" in
  [ reduction_of (pm25_img_now ee_24h ee_now) POINT REDUCE_SCALE;
    reduction_of latest_temp_img POINT REDUCE_SCALE;
    reduction_of (cams_365_mean ee_1y ee_now) POINT REDUCE_SCALE;
    reduction_of (era5_365_mean ee_1y ee_now) POINT REDUCE_SCALE ].

(** The repository calls one upload makes, after the calls [h]: the fetch,
    then the update (and the creation, if the update raised), or the
    creation alone if the fetch raised. *)
Definition upload_calls (w : world) (h : list gh_call) (path : string)
    (t : text) : list gh_call :=
  let create := CreateFile path ("Create " +:+ Py.basename path) t in
  GetContents path ::
    match gh_get_contents w h path with
    | Ret c =>
        let update := UpdateFile (cf_path c)
                        ("Auto-update " +:+ Py.basename path) t (cf_sha c) in
        match gh_update_file w (h ++ [GetContents path]) (cf_path c)
                ("Auto-update " +:+ Py.basename path) t (cf_sha c) with
        | Ret _ => [update]
        | Raise _ => [update; create]
        end
    | Raise _ => [create]
    end.

(** The repository calls of the whole upload section, after the calls
    [h], for the texts of the four local files. *)
Definition section_calls (w : world) (h : list gh_call)
    (t1 t2 t3 t4 : text) : list gh_call :=
  let h0 := h ++ [GetRepo REPO_NAME] in
  let c1 := upload_calls w h0 OUT_CURRENT t1 in
  let c2 := upload_calls w (h0 ++ c1) OUT_ANNUAL_PM25 t2 in
  let c3 := upload_calls w (h0 ++ c1 ++ c2) OUT_ANNUAL_TEMP t3 in
  let c4 := upload_calls w (h0 ++ c1 ++ c2 ++ c3) OUT_HISTORY t4 in
  GetRepo REPO_NAME :: c1 ++ c2 ++ c3 ++ c4.

(** A call that tries to publish the text [t] as the document [path]. *)
Definition is_attempt_for (path : string) (t : text) (c : gh_call) : Prop :=
  match c with
  | UpdateFile _ message content _ =>
      message = "Auto-update " +:+ Py.basename path ∧ content = t
  | CreateFile p message content =>
      p = path ∧ message = "Create " +:+ Py.basename path ∧ content = t
  | GetRepo _ | GetContents _ => False
  end.

(** Among [calls], the document [path] was fetched and an update or a
    creation of it with the text [t] was tried. *)
Definition attempted (calls : list gh_call) (path : string) (t : text)
  : Prop :=
  GetContents path ∈ calls ∧ ∃ c, c ∈ calls ∧ is_attempt_for path t c.

(** The world [w] with the environment variable [key] set to [value], or
    unset. *)
Definition with_env (w : world) (key : string) (value : option string)
  : world :=
  {| getenv := fun k => if String.eqb k key then value else getenv w k;
     utcnow := utcnow w;
     ee_Initialize := ee_Initialize w;
     ee_Initialize_credentials := ee_Initialize_credentials w;
     ee_getInfo := ee_getInfo w;
     gh_get_repo := gh_get_repo w;
     gh_get_contents := gh_get_contents w;
     gh_update_file := gh_update_file w;
     gh_create_file := gh_create_file w |}.

(** What a computation does in every state: it returns, it raises, it
    leaves one component of the state as it was, it maintains a property
    of the state. *)
Definition returns {A : Type} (c : M A) : Prop :=
  ∀ s, ∃ a, (c s).1 = Ret a.

Definition fails {A : Type} (c : M A) : Prop :=
  ∀ s, ∃ e, (c s).1 = Raise e.

Definition keeps {A F : Type} (f : state -> F) (c : M A) : Prop :=
  ∀ s, f (c s).2 = f s.

Definition preserves {A : Type} (P : state -> Prop) (c : M A) : Prop :=
  ∀ s, P s -> P (c s).2.

(** ** ISO 8601 timestamps

    The extended format of a UTC date and time in ISO 8601, which is also
    the one of RFC 3339 and the one [isoformat()] writes:
    [YYYY-MM-DDTHH:MM:SS], an optional fraction [.f+], and then exactly
    one designator of the zone, [Z] or [+00:00], and nothing after it.
    The recogniser checks this layout and not the ranges of the fields, so
    it accepts no less than the valid timestamps of that format. *)
Module Iso8601.

Definition is_digit (c : ascii) : bool :=
  (48 <=? nat_of_ascii c) && (nat_of_ascii c <=? 57).

Fixpoint expect_digits (n : nat) (s : string) : option string :=
  match n, s with
  | 0, _ => Some s
  | S n', String c s' => if is_digit c then expect_digits n' s' else None
  | S _, EmptyString => None
  end.

Definition expect_char (c : ascii) (s : string) : option string :=
  match s with
  | String c' s' => if Ascii.eqb c c' then Some s' else None
  | EmptyString => None
  end.

Fixpoint skip_digits (s : string) : string :=
  match s with
  | String c s' => if is_digit c then skip_digits s' else s
  | EmptyString => s
  end.

Definition utc_designator (s : string) : bool :=
  String.eqb s "Z" || String.eqb s "+00:00".

Definition fraction_and_zone (s : string) : bool :=
  match expect_char "." s with
  | Some s' =>
      match expect_digits 1 s' with
      | Some s'' => utc_designator (skip_digits s'')
      | None => false
      end
  | None => utc_designator s
  end.

Definition and_then (o : option string) (step : string -> option string)
  : option string :=
  match o with
  | Some s => step s
  | None => None
  end.

Definition date_and_time (s : string) : option string :=
  foldl and_then (Some s)
    [ expect_digits 4; expect_char "-"; expect_digits 2; expect_char "-";
      expect_digits 2; expect_char "T"; expect_digits 2; expect_char ":";
      expect_digits 2; expect_char ":"; expect_digits 2 ].

Definition utc_timestamp (s : string) : bool :=
  match date_and_time s with
  | Some rest => fraction_and_zone rest
  | None => false
  end.

End Iso8601.

(** The text after the seconds: the fraction, if any, and the offset. *)
Definition tail_of (t : datetime) (zone : string) : string :=
  (if microsecond t =? 0 then EmptyString
   else "." +:+ Clock.digits 6 (microsecond t))
  +:+ zone.

(** ** Sample worlds and states *)

Module Sample.

Definition noon : datetime := DateTime 2026 11 3 12 0 0 0.
Definition later : datetime := DateTime 2026 11 3 9 33 12 123456.

(** No variable set, every service answering, every reduction empty, and
    nothing yet in the repository. *)
Definition offline : world :=
  {| getenv := fun _ => None;
     utcnow := fun n => if n =? 0 then noon else later;
     ee_Initialize := Ret tt;
     ee_Initialize_credentials := fun _ _ => Ret tt;
     ee_getInfo := fun _ _ => Ret [];
     gh_get_repo := fun _ _ => Ret tt;
     gh_get_contents := fun _ p => Raise (Exn GithubException "404");
     gh_update_file := fun _ _ _ _ _ => Ret tt;
     gh_create_file := fun _ _ _ _ => Raise (Exn GithubException "403") |}.

(** As [offline], with the token set and [data/current.json] present. *)
Definition online : world :=
  {| getenv := fun k => if String.eqb k "GITHUB_TOKEN" then Some "t0k" else None;
     utcnow := utcnow offline;
     ee_Initialize := Ret tt;
     ee_Initialize_credentials := fun _ _ => Ret tt;
     ee_getInfo := fun _ _ => Ret [("temperature_2m", Some 300%float)];
     gh_get_repo := fun _ _ => Ret tt;
     gh_get_contents := fun _ p =>
       if String.eqb p "data/current.json"
       then Ret (ContentFile p "3f2a") else Raise (Exn GithubException "404");
     gh_update_file := fun _ _ _ _ _ => Ret tt;
     gh_create_file := fun _ _ _ _ => Raise (Exn GithubException "403") |}.

Definition with_files (files : gmap string file) : state :=
  State files 0 [] [] [].

Definition fresh : state := with_files ∅.

Definition entry (n : Z) : json :=
  JObj [("ts", JStr "T"); ("pm25", JInt n); ("temp", JNull)].

Definition reading : dict json :=
  current_json "T1" (Some 10%float) (Some 20%float).

(** The working directory once the four documents are written. *)
Definition written : state :=
  with_files
    {[ "current.json" := Text (JsonText (JObj reading));
       "annual_pm25.json" := Text (JsonText (JObj (annual_pm25_json None "T2")));
       "annual_temperature.json" :=
         Text (JsonText (JObj (annual_temp_json None "T3")));
       "history.json" := Text (JsonText (JArr [entry 0])) ]}.

(** As [offline], with the Earth Engine session refused. *)
Definition no_session : world :=
  {| getenv := getenv offline;
     utcnow := utcnow offline;
     ee_Initialize := Raise (Exn EEException "Please authorize access");
     ee_Initialize_credentials := ee_Initialize_credentials offline;
     ee_getInfo := ee_getInfo offline;
     gh_get_repo := gh_get_repo offline;
     gh_get_contents := gh_get_contents offline;
     gh_update_file := gh_update_file offline;
     gh_create_file := gh_create_file offline |}.

(** As [online], with the repository out of reach. *)
Definition unreachable : world :=
  {| getenv := getenv online;
     utcnow := utcnow online;
     ee_Initialize := Ret tt;
     ee_Initialize_credentials := ee_Initialize_credentials online;
     ee_getInfo := ee_getInfo online;
     gh_get_repo := fun _ _ => Raise (Exn GithubException "401");
     gh_get_contents := gh_get_contents online;
     gh_update_file := gh_update_file online;
     gh_create_file := gh_create_file online |}.

(** As [online], with every update refused. *)
Definition conflicting : world :=
  {| getenv := getenv online;
     utcnow := utcnow online;
     ee_Initialize := Ret tt;
     ee_Initialize_credentials := ee_Initialize_credentials online;
     ee_getInfo := ee_getInfo online;
     gh_get_repo := gh_get_repo online;
     gh_get_contents := gh_get_contents online;
     gh_update_file := fun _ _ _ _ _ => Raise (Exn GithubException "409");
     gh_create_file := gh_create_file online |}.

(** As [online], with the token set to the empty string. *)
Definition blank_token : world :=
  with_env online "GITHUB_TOKEN" (Some EmptyString).

(** A working directory whose history holds one entry. *)
Definition one_entry : state :=
  with_files {[ "history.json" := Text (JsonText (JArr [entry 0])) ]}.

(** A working directory whose history is a JSON object. *)
Definition object_history : state :=
  with_files {[ "history.json" := Text (JsonText (JObj [("a", JInt 1)])) ]}.

(** A working directory whose history cannot be opened. *)
Definition locked_history : state :=
  with_files {[ "history.json" := NoAccess ]}.

(** The triple [append_history] makes of [reading]. *)
Definition triple : json :=
  JObj [("ts", JStr "T1"); ("pm25", JNum 10); ("temp", JNum 20)].

End Sample.

(** * Properties *)

(** ** Slices *)

Section Slices.

Context {A : Type}.
Implicit Types (l : list A) (x : A).

Lemma slice_from_neg l (m : nat) :
  0 < m -> Py.slice_from (- Z.of_nat m) l = drop (length l - m) l.
Proof.
  intros Hm. unfold Py.slice_from.
  destruct (Z.ltb_spec (- Z.of_nat m) 0) as [_ | ?]; [ | lia ].
  f_equal. lia.
Qed.

Lemma slice_from_snoc l x (m : nat) :
  0 < m ->
  Py.slice_from (- Z.of_nat m) (l ++ [x]) = drop (length l + 1 - m) l ++ [x].
Proof.
  intros Hm. rewrite slice_from_neg by done.
  rewrite length_app. simpl. apply drop_app_le. lia.
Qed.

(** [l[-0:]] is the whole list: a zero bound keeps everything. *)
Lemma slice_from_zero l : Py.slice_from (- 0) l = l.
Proof.
  unfold Py.slice_from.
  destruct (Z.ltb_spec (- 0) 0) as [? | _]; [ lia | ].
  replace (Z.to_nat (Z.min (- 0) (Z.of_nat (length l)))) with 0 by lia.
  apply drop_0.
Qed.

End Slices.

(** ** The history ledger *)

Section History.

Implicit Types (s : state) (path : string) (cur : dict json).

Lemma read_local_history_spec path s :
  read_local_history path s =
  (Ret match fs s !! path with
       | Some (Text (JsonText v)) => v
       | _ => JArr []
       end, s).
Proof.
  unfold read_local_history, try_except, bind, open_read, lift.
  destruct (fs s !! path) as [[ | [raw | v]] | ]; reflexivity.
Qed.

Lemma append_history_list path cur maxlen s hist ts pm25 temp :
  read_local_history path s = (Ret (JArr hist), s) ->
  fs s !! path ≠ Some NoAccess ->
  Py.get cur "timestamp_utc" = Some ts ->
  Py.get cur "pm25_ugm3" = Some pm25 ->
  Py.get cur "temperature_c" = Some temp ->
  let hist' :=
    Py.slice_from (- maxlen)
      (hist ++ [JObj [("ts", ts); ("pm25", pm25); ("temp", temp)]]) in
  append_history path cur maxlen s =
  (Ret (JArr hist'),
   State (<[path := Text (JsonText (JArr hist'))]> (fs s)) (ticks s)
         (ee_log s) (gh_log s) (stdout s)).
Proof.
  intros Hread Hacc Hts Hpm Htemp hist'.
  unfold append_history, bind at 1. rewrite Hread.
  unfold bind, lift, Py.getitem. simpl. rewrite Hts, Hpm, Htemp.
  fold hist'. unfold open_write_dump, ret.
  destruct (fs s !! path) as [[ | t] | ]; done.
Qed.

(** C1. With a history that loads as a list and can be written back,
    [append_history] returns and stores the list with the new triple
    appended and cut to its last 200 entries: at most 200 long, ending
    with the new triple; from a full log of 200 it drops the oldest entry
    only, so the former second entry comes first; from an empty history it
    is the new triple alone. *)
Theorem append_history_bounded_fifo path cur s hist ts pm25 temp :
  read_local_history path s = (Ret (JArr hist), s) ->
  fs s !! path ≠ Some NoAccess ->
  Py.get cur "timestamp_utc" = Some ts ->
  Py.get cur "pm25_ugm3" = Some pm25 ->
  Py.get cur "temperature_c" = Some temp ->
  let new := JObj [("ts", ts); ("pm25", pm25); ("temp", temp)] in
  let r := append_history path cur HISTORY_MAX s in
  ∃ hist' : list json,
    r.1 = Ret (JArr hist') ∧
    fs r.2 !! path = Some (Text (JsonText (JArr hist'))) ∧
    length hist' ≤ 200 ∧
    last hist' = Some new ∧
    (length hist = 200 ->
       length hist' = 200 ∧ hist' !! 0 = hist !! 1 ∧ last hist' = Some new) ∧
    (hist = [] -> hist' = [new]).
Proof.
  intros Hread Hacc Hts Hpm Htemp new r.
  pose proof (append_history_list path cur HISTORY_MAX s hist ts pm25 temp
                Hread Hacc Hts Hpm Htemp) as Hrun.
  cbv zeta in Hrun. fold new in Hrun.
  change HISTORY_MAX with (Z.of_nat 200) in Hrun.
  rewrite (slice_from_snoc hist new 200) in Hrun by lia.
  exists (drop (length hist + 1 - 200) hist ++ [new]).
  subst r. change HISTORY_MAX with (Z.of_nat 200). rewrite Hrun. cbn [fst snd fs].
  split; [ done | ].
  split; [ apply lookup_insert_eq | ].
  split; [ rewrite length_app, length_drop; simpl; lia | ].
  split; [ apply last_snoc | ].
  split.
  - intros Hfull. rewrite Hfull.
    replace (200 + 1 - 200) with 1 by lia.
    split; [ rewrite length_app, length_drop; simpl; lia | ].
    split; [ | apply last_snoc ].
    rewrite lookup_app_l by (rewrite length_drop; lia).
    by rewrite lookup_drop.
  - intros ->. done.
Qed.

(** C7. When the history file is missing, cannot be opened, or holds text
    that does not parse, [read_local_history] returns the empty list and
    raises nothing; the state is untouched. *)
Theorem read_local_history_swallows path s :
  fs s !! path = None ∨
  fs s !! path = Some NoAccess ∨
  (∃ raw, fs s !! path = Some (Text (Corrupt raw))) ->
  read_local_history path s = (Ret (JArr []), s).
Proof.
  intros H. rewrite read_local_history_spec.
  destruct H as [-> | [-> | [raw ->]]]; reflexivity.
Qed.

(** C10. A history file holding valid JSON is returned as parsed, whatever
    its top-level value; when that value is not an array, [append_history]
    is not protected: it raises [AttributeError] at [hist.append] and
    leaves the file as it was. *)
Theorem read_local_history_not_a_list path s v cur maxlen :
  fs s !! path = Some (Text (JsonText v)) ->
  read_local_history path s = (Ret v, s) ∧
  (Py.is_list v = false ->
   ∃ e, exn_kind e = AttributeError ∧
        append_history path cur maxlen s = (Raise e, s)).
Proof.
  intros Hfile.
  assert (Hread : read_local_history path s = (Ret v, s))
    by (by rewrite read_local_history_spec, Hfile).
  split; [ done | ].
  intros Hv. unfold append_history, bind at 1. rewrite Hread.
  destruct v; try discriminate Hv; eexists; (split; [ | reflexivity ]); done.
Qed.

End History.

(** ** Rules for computations *)

Section Rules.

Context {A B : Type}.
Implicit Types (c : M A) (k : A -> M B) (h : exn -> M A) (P : state -> Prop).

Lemma preserves_bind P c k :
  preserves P c -> (∀ a, preserves P (k a)) -> preserves P (bind c k).
Proof.
  intros Hc Hk s Hs. specialize (Hc s Hs). unfold bind.
  destruct (c s) as [[a | e] s']; simpl in *; [ by apply Hk | done ].
Qed.

Lemma preserves_try P c h :
  preserves P c -> (∀ e, preserves P (h e)) -> preserves P (try_except c h).
Proof.
  intros Hc Hh s Hs. specialize (Hc s Hs). unfold try_except.
  destruct (c s) as [[a | e] s']; simpl in *; [ done | by apply Hh ].
Qed.

Lemma keeps_preserves {F : Type} (f : state -> F) (Q : F -> Prop) c :
  keeps f c -> preserves (fun s => Q (f s)) c.
Proof. intros Hc s Hs. by rewrite Hc. Qed.

Lemma keeps_bind {F : Type} (f : state -> F) c k :
  keeps f c -> (∀ a, keeps f (k a)) -> keeps f (bind c k).
Proof.
  intros Hc Hk s. specialize (Hc s). unfold bind.
  destruct (c s) as [[a | e] s']; simpl in *; [ by rewrite Hk | done ].
Qed.

Lemma keeps_try {F : Type} (f : state -> F) c h :
  keeps f c -> (∀ e, keeps f (h e)) -> keeps f (try_except c h).
Proof.
  intros Hc Hh s. specialize (Hc s). unfold try_except.
  destruct (c s) as [[a | e] s']; simpl in *; [ done | by rewrite Hh ].
Qed.

Lemma returns_bind c k :
  returns c -> (∀ a, returns (k a)) -> returns (bind c k).
Proof.
  intros Hc Hk s. destruct (Hc s) as [a Ha]. unfold bind.
  destruct (c s) as [[a' | e] s']; simpl in *; [ apply Hk | done ].
Qed.

Lemma returns_try c h :
  (∀ e, returns (h e)) -> returns (try_except c h).
Proof.
  intros Hh s. unfold try_except.
  destruct (c s) as [[a | e] s']; simpl; [ by exists a | apply Hh ].
Qed.

Lemma bind_ret c k s a s' : c s = (Ret a, s') -> bind c k s = k a s'.
Proof. intros H. unfold bind. by rewrite H. Qed.

Lemma bind_raise c k s e s' :
  c s = (Raise e, s') -> bind c k s = (Raise e, s').
Proof. intros H. unfold bind. by rewrite H. Qed.

Lemma try_ret c h s a s' :
  c s = (Ret a, s') -> try_except c h s = (Ret a, s').
Proof. intros H. unfold try_except. by rewrite H. Qed.

Lemma try_raise c h s e s' :
  c s = (Raise e, s') -> try_except c h s = h e s'.
Proof. intros H. unfold try_except. by rewrite H. Qed.

Lemma fails_bind_l c k : fails c -> fails (bind c k).
Proof.
  intros Hc s. destruct (Hc s) as [e He]. unfold bind.
  destruct (c s) as [[a | e'] s']; simpl in *; [ done | by exists e' ].
Qed.

Lemma fails_bind_r c k : (∀ a, fails (k a)) -> fails (bind c k).
Proof.
  intros Hk s. unfold bind.
  destruct (c s) as [[a | e] s']; simpl; [ apply Hk | by exists e ].
Qed.

End Rules.

Create HintDb frame discriminated.

(** A primitive touches the components its definition names, no other. *)
Ltac primitive :=
  let s := fresh "s" in
  intros s;
  cbv [print open_read open_write_dump datetime_now getInfo log_gh get_repo
       get_contents update_file create_file ret raise lift];
  repeat case_match; simpl; eauto.

(** Walk down a computation built from [bind] and [try_except]. *)
Ltac walk :=
  cbv zeta;
  repeat first
    [ solve [ eauto with frame ]
    | apply keeps_bind; [ | intros ? ]
    | apply keeps_try; [ | intros ? ]
    | apply returns_bind; [ | intros ? ]
    | apply returns_try; intros ?
    | solve [ primitive ] ].

(** ** The reducer and the derived values *)

Section Reducer.

Variable w : world.
Implicit Types (s : state) (img : EE.image) (sample : option EE.info).

Lemma safe_reduce_mean_run img geometry scale s :
  let rr := reduction_of img geometry scale in
  safe_reduce_mean w img geometry scale s =
  match ee_getInfo w (ee_log s) rr with
  | Ret d =>
      (Ret (Some d),
       State (fs s) (ticks s) (ee_log s ++ [rr]) (gh_log s) (stdout s))
  | Raise e =>
      (Ret None,
       State (fs s) (ticks s) (ee_log s ++ [rr]) (gh_log s)
             (stdout s ++ ["⚠ safe_reduce_mean failed: " +:+ exn_msg e]))
  end.
Proof.
  intros rr.
  unfold safe_reduce_mean, try_except, bind, getInfo, ret, print.
  fold (reduction_of img geometry scale). fold rr.
  destruct (ee_getInfo w (ee_log s) rr); reflexivity.
Qed.

(** C2, as the code has it.  [safe_reduce_mean] always returns: it sends
    one reduction and hands back the mapping the service answered, as it
    is (also when it is empty), or [None] when the call raised.  Nothing
    is put in the place of missing data, and the callers read [None] and
    the empty mapping alike. *)
Theorem safe_reduce_mean_total img geometry scale s :
  let rr := reduction_of img geometry scale in
  let r := safe_reduce_mean w img geometry scale s in
  ee_log r.2 = ee_log s ++ [rr] ∧
  match ee_getInfo w (ee_log s) rr with
  | Ret d => r.1 = Ret (Some d)
  | Raise _ => r.1 = Ret None
  end ∧
  first_value None = None ∧ first_value (Some []) = None.
Proof.
  intros rr r. subst r. rewrite safe_reduce_mean_run. fold rr.
  destruct (ee_getInfo w (ee_log s) rr); done.
Qed.

End Reducer.

Lemma first_value_cons band (v : option float) rest :
  first_value (Some ((band, v) :: rest)) = v.
Proof.
  unfold first_value. simpl. by rewrite String.eqb_refl.
Qed.

Lemma no_data_first_value sample :
  no_data sample = true -> first_value sample = None.
Proof.
  destruct sample as [[ | [band [v | ]] rest] | ]; try done.
  intros _. apply first_value_cons.
Qed.

(** C2, as stated, fails: when the service answers the empty mapping, the
    result is neither [None] nor a mapping with a band. *)
Lemma safe_reduce_mean_returns_empty_mapping :
  ¬ (∀ (w : world) img geometry scale s,
       (safe_reduce_mean w img geometry scale s).1 = Ret None ∨
       ∃ d : EE.info,
         d ≠ [] ∧ (safe_reduce_mean w img geometry scale s).1 = Ret (Some d)).
Proof.
  intros H.
  destruct (H Sample.offline latest_temp_img POINT REDUCE_SCALE Sample.fresh)
    as [H0 | (d & Hd & H0)]; rewrite safe_reduce_mean_run in H0; simpl in H0.
  - discriminate H0.
  - apply Hd. congruence.
Qed.

(** When a reduction brought no data, the field derived from it is in the
    document, under its key, with the value null. *)
Lemma no_data_field_is_null sample (ts generated : string)
    (other : option float) :
  no_data sample = true ->
  Py.get (current_json ts (pm25_now_ug sample) other) "pm25_ugm3"
    = Some JNull ∧
  Py.get (current_json ts other (temp_now_c sample)) "temperature_c"
    = Some JNull ∧
  Py.get (annual_pm25_json (annual_pm25_ug sample) generated) "pm25_ugm3"
    = Some JNull ∧
  Py.get (annual_temp_json (annual_temp_c sample) generated) "temperature_c"
    = Some JNull.
Proof.
  intros Hnone%no_data_first_value.
  unfold pm25_now_ug, temp_now_c, annual_pm25_ug, annual_temp_c.
  rewrite Hnone. repeat split.
Qed.

(** C4, as the code has it.  A value [v] that is there is published as
    the double product [v * 1e9] or the double difference [v - 273.15];
    at [v = 300.0] the difference is 26.850000000000023. *)
Theorem unit_conversions band (v : float) rest :
  let sample := Some ((band, Some v) :: rest) in
  pm25_now_ug sample = Some (PrimFloat.mul v 1e9%float) ∧
  annual_pm25_ug sample = Some (PrimFloat.mul v 1e9%float) ∧
  temp_now_c sample = Some (PrimFloat.sub v 273.15%float) ∧
  annual_temp_c sample = Some (PrimFloat.sub v 273.15%float) ∧
  temp_now_c (Some [(band, Some 300%float)]) = Some 26.850000000000023%float.
Proof.
  intros sample.
  unfold pm25_now_ug, temp_now_c, annual_pm25_ug, annual_temp_c, sample.
  rewrite !first_value_cons. repeat split.
Qed.

(** C4, as stated, fails at its own example: 300.0 - 273.15 is not the
    double 26.85. *)
Lemma temp_now_c_300_is_not_26_85 :
  temp_now_c (Some [("temperature_2m", Some 300%float)]) ≠ Some 26.85%float.
Proof.
  intros H.
  apply (f_equal (fun o => match o with
                           | Some x => PrimFloat.eqb x 26.85%float
                           | None => false
                           end)) in H.
  vm_compute in H. discriminate H.
Qed.

(** ** What the local steps leave alone *)

Lemma read_local_history_keeps {F : Type} (f : state -> F) path :
  keeps f (read_local_history path).
Proof. intros s. by rewrite read_local_history_spec. Qed.

Lemma append_history_keeps_gh path cur maxlen :
  keeps gh_log (append_history path cur maxlen).
Proof.
  unfold append_history. apply keeps_bind; [ apply read_local_history_keeps | ].
  intros hist. walk.
Qed.

Lemma append_history_keeps_ee path cur maxlen :
  keeps ee_log (append_history path cur maxlen).
Proof.
  unfold append_history. apply keeps_bind; [ apply read_local_history_keeps | ].
  intros hist. walk.
Qed.

Lemma section_write_keeps_gh cur a1 a2 hist :
  keeps gh_log (section_write cur a1 a2 hist).
Proof. unfold section_write, write_local. walk. Qed.

Lemma section_write_keeps_ee cur a1 a2 hist :
  keeps ee_log (section_write cur a1 a2 hist).
Proof. unfold section_write, write_local. walk. Qed.

Lemma open_write_dump_readable (f path : string) obj :
  preserves (fun s => ∃ t, fs s !! f = Some (Text t))
            (open_write_dump path obj).
Proof.
  intros s [t Ht]. unfold open_write_dump.
  destruct (fs s !! path) as [[ | t'] | ] eqn:E; simpl; eauto;
    (destruct (decide (path = f)) as [-> | Hne];
     [ rewrite lookup_insert_eq | rewrite lookup_insert_ne by done ]; eauto).
Qed.

Lemma readable_after_write (f path : string) obj s s' (o : outcome unit) :
  open_write_dump path obj s = (o, s') ->
  (∃ t, fs s !! f = Some (Text t)) -> ∃ t, fs s' !! f = Some (Text t).
Proof.
  intros E H. apply (open_write_dump_readable f path obj) in H.
  by rewrite E in H.
Qed.

Lemma open_write_dump_written (path : string) obj s s' :
  open_write_dump path obj s = (Ret tt, s') ->
  ∃ t, fs s' !! path = Some (Text t).
Proof.
  unfold open_write_dump.
  destruct (fs s !! path) as [[ | t'] | ]; intros [= <-]; simpl;
    rewrite lookup_insert_eq; eauto.
Qed.

(** Once the four documents are written, each can be read back. *)
Lemma section_write_readable cur a1 a2 hist s :
  (section_write cur a1 a2 hist s).1 = Ret tt ->
  Forall (fun u => ∃ t, fs (section_write cur a1 a2 hist s).2 !! u.2
                        = Some (Text t)) uploads.
Proof.
  unfold section_write, write_local, bind.
  destruct (open_write_dump "current.json" _ s) as [[[] | e] s1] eqn:E1;
    [ | discriminate ].
  destruct (open_write_dump "annual_pm25.json" _ s1) as [[[] | e] s2] eqn:E2;
    [ | discriminate ].
  destruct (open_write_dump "annual_temperature.json" _ s2)
    as [[[] | e] s3] eqn:E3; [ | discriminate ].
  destruct (open_write_dump HISTORY_LOCAL _ s3) as [[[] | e] s4] eqn:E4;
    [ | discriminate ].
  intros _. cbn [snd print fs].
  pose proof (open_write_dump_written _ _ _ _ E1) as R1.
  pose proof (open_write_dump_written _ _ _ _ E2) as R2.
  pose proof (open_write_dump_written _ _ _ _ E3) as R3.
  pose proof (open_write_dump_written _ _ _ _ E4) as R4.
  apply (readable_after_write _ _ _ _ _ _ E2) in R1.
  apply (readable_after_write _ _ _ _ _ _ E3) in R1, R2.
  apply (readable_after_write _ _ _ _ _ _ E4) in R1, R2, R3.
  unfold uploads. repeat constructor; assumption.
Qed.

(** ** The run as a whole *)

Section Run.

Variable w : world.
Implicit Types (s : state) (img : EE.image).

Lemma now_iso_returns : returns (now_iso w).
Proof. unfold now_iso. walk. Qed.

Lemma now_iso_keeps_ee : keeps ee_log (now_iso w).
Proof. unfold now_iso. walk. Qed.

Lemma now_iso_keeps_gh : keeps gh_log (now_iso w).
Proof. unfold now_iso. walk. Qed.

Lemma safe_reduce_mean_returns img g scale :
  returns (safe_reduce_mean w img g scale).
Proof. unfold safe_reduce_mean. walk. Qed.

Lemma safe_reduce_mean_keeps_gh img g scale :
  keeps gh_log (safe_reduce_mean w img g scale).
Proof. unfold safe_reduce_mean. walk. Qed.

#[local] Hint Resolve now_iso_returns now_iso_keeps_ee now_iso_keeps_gh
  safe_reduce_mean_returns safe_reduce_mean_keeps_gh : frame.

Lemma section_current_returns ee_now : returns (section_current w ee_now).
Proof. unfold section_current. walk. Qed.

Lemma section_annual_returns ee_now : returns (section_annual w ee_now).
Proof. unfold section_annual. walk. Qed.

Lemma section_current_keeps_gh ee_now :
  keeps gh_log (section_current w ee_now).
Proof. unfold section_current. walk. Qed.

Lemma section_annual_keeps_gh ee_now :
  keeps gh_log (section_annual w ee_now).
Proof. unfold section_annual. walk. Qed.

Lemma initialize_ee_keeps_gh : keeps gh_log (initialize_ee w).
Proof. unfold initialize_ee. walk. Qed.

Lemma initialize_ee_keeps_ee : keeps ee_log (initialize_ee w).
Proof. unfold initialize_ee. walk. Qed.

Lemma upload_json_keeps_ee path local : keeps ee_log (upload_json w path local).
Proof. unfold upload_json. walk. Qed.

Lemma section_upload_keeps_ee : keeps ee_log (section_upload w).
Proof.
  pose proof upload_json_keeps_ee.
  unfold section_upload. destruct (not_token _); walk.
Qed.

(** *** The documents of a run *)

Lemma safe_reduce_mean_answer img g scale s :
  ∃ s', safe_reduce_mean w img g scale s =
          (Ret (sample_of (ee_getInfo w (ee_log s) (reduction_of img g scale))),
           s') ∧
        ee_log s' = ee_log s ++ [reduction_of img g scale].
Proof.
  rewrite safe_reduce_mean_run.
  destruct (ee_getInfo w (ee_log s) (reduction_of img g scale));
    eexists; split; reflexivity.
Qed.

Lemma now_iso_answer s :
  ∃ ts s', now_iso w s = (Ret ts, s') ∧ ee_log s' = ee_log s.
Proof. do 2 eexists. split; reflexivity. Qed.

Lemma section_current_document ee_now s :
  let rr1 := reduction_of (pm25_img_now (EE.Advance ee_now (-1) "day") ee_now)
                          POINT REDUCE_SCALE in
  let rr2 := reduction_of latest_temp_img POINT REDUCE_SCALE in
  ∃ ts,
    (section_current w ee_now s).1 =
    Ret (current_json ts
           (pm25_now_ug (sample_of (ee_getInfo w (ee_log s) rr1)))
           (temp_now_c (sample_of (ee_getInfo w (ee_log s ++ [rr1]) rr2)))).
Proof.
  intros rr1 rr2. unfold section_current. cbv zeta. fold rr1 rr2.
  destruct (safe_reduce_mean_answer
              (pm25_img_now (EE.Advance ee_now (-1) "day") ee_now)
              POINT REDUCE_SCALE s) as (s1 & H1 & L1).
  destruct (safe_reduce_mean_answer latest_temp_img POINT REDUCE_SCALE s1)
    as (s2 & H2 & L2).
  destruct (now_iso_answer s2) as (ts & s3 & H3 & L3).
  exists ts. unfold bind. rewrite H1, H2, H3. fold rr1 rr2. by rewrite L1.
Qed.

Lemma section_annual_documents ee_now s :
  let ee_1y := EE.Advance ee_now (-365) "day" in
  let rr1 := reduction_of (cams_365_mean ee_1y ee_now) POINT REDUCE_SCALE in
  let rr2 := reduction_of (era5_365_mean ee_1y ee_now) POINT REDUCE_SCALE in
  ∃ g1 g2,
    (section_annual w ee_now s).1 =
    Ret (annual_pm25_json
           (annual_pm25_ug (sample_of (ee_getInfo w (ee_log s) rr1))) g1,
         annual_temp_json
           (annual_temp_c (sample_of (ee_getInfo w (ee_log s ++ [rr1]) rr2)))
           g2).
Proof.
  intros ee_1y rr1 rr2. unfold section_annual. cbv zeta. fold ee_1y rr1 rr2.
  destruct (safe_reduce_mean_answer (cams_365_mean ee_1y ee_now)
              POINT REDUCE_SCALE s) as (s1 & H1 & L1).
  destruct (now_iso_answer s1) as (g1 & s2 & H2 & L2).
  destruct (safe_reduce_mean_answer (era5_365_mean ee_1y ee_now)
              POINT REDUCE_SCALE s2) as (s3 & H3 & L3).
  destruct (now_iso_answer s3) as (g2 & s4 & H4 & L4).
  exists g1, g2. unfold bind. rewrite H1, H2, H3, H4. fold rr1 rr2.
  by rewrite L2, L1.
Qed.

(** C3. In every run, both sections return their documents, and each
    field derived from a reduction that brought no data is in its
    document, under its key, with the value null. *)
Theorem absent_reduction_is_published_null ee_now s :
  let ee_24h := EE.Advance ee_now (-1) "day" in
  let ee_1y := EE.Advance ee_now (-365) "day" in
  let pm25_now := reduction_of (pm25_img_now ee_24h ee_now) POINT REDUCE_SCALE in
  let temp_now := reduction_of latest_temp_img POINT REDUCE_SCALE in
  let pm25_1y := reduction_of (cams_365_mean ee_1y ee_now) POINT REDUCE_SCALE in
  let temp_1y := reduction_of (era5_365_mean ee_1y ee_now) POINT REDUCE_SCALE in
  (∃ current,
     (section_current w ee_now s).1 = Ret current ∧
     (no_data (sample_of (ee_getInfo w (ee_log s) pm25_now)) = true ->
      Py.get current "pm25_ugm3" = Some JNull) ∧
     (no_data (sample_of (ee_getInfo w (ee_log s ++ [pm25_now]) temp_now)) = true ->
      Py.get current "temperature_c" = Some JNull)) ∧
  (∃ annual_pm25 annual_temp,
     (section_annual w ee_now s).1 = Ret (annual_pm25, annual_temp) ∧
     (no_data (sample_of (ee_getInfo w (ee_log s) pm25_1y)) = true ->
      Py.get annual_pm25 "pm25_ugm3" = Some JNull) ∧
     (no_data (sample_of (ee_getInfo w (ee_log s ++ [pm25_1y]) temp_1y)) = true ->
      Py.get annual_temp "temperature_c" = Some JNull)).
Proof.
  cbv zeta. split.
  - destruct (section_current_document ee_now s) as [ts Hdoc].
    eexists. split; [ exact Hdoc | ].
    unfold pm25_now_ug, temp_now_c.
    split; intros Hnone; by rewrite (no_data_first_value _ Hnone).
  - destruct (section_annual_documents ee_now s) as (g1 & g2 & Hdoc).
    do 2 eexists. split; [ exact Hdoc | ].
    unfold annual_pm25_ug, annual_temp_c.
    split; intros Hnone; by rewrite (no_data_first_value _ Hnone).
Qed.

(** *** The geometry of the reductions *)

Lemma safe_reduce_mean_point img :
  image_bounds img = [EE.Buffer POINT BUFFER_M] ->
  preserves (fun s => Forall point_reduction (ee_log s))
            (safe_reduce_mean w img POINT REDUCE_SCALE).
Proof.
  intros Himg s Hs.
  destruct (safe_reduce_mean_answer img POINT REDUCE_SCALE s)
    as (s' & Hrun & Hlog).
  rewrite Hrun. simpl. rewrite Hlog.
  apply Forall_app. split; [ done | ].
  repeat constructor. exact Himg.
Qed.

Ltac point_reductions :=
  cbv zeta;
  repeat first
    [ apply preserves_bind; [ | intros ? ]
    | apply safe_reduce_mean_point; reflexivity
    | apply (keeps_preserves ee_log (Forall point_reduction)); solve [ walk ] ].

Lemma section_current_point ee_now :
  preserves (fun s => Forall point_reduction (ee_log s))
            (section_current w ee_now).
Proof. unfold section_current. point_reductions. Qed.

Lemma section_annual_point ee_now :
  preserves (fun s => Forall point_reduction (ee_log s))
            (section_annual w ee_now).
Proof. unfold section_annual. point_reductions. Qed.

(** C6, as the code has it.  Every reduction a run sends is evaluated
    over the bare point, at the default scale; the point buffered by 20 km
    is the region the collections were filtered to, not the geometry of
    the reduction. *)
Theorem reductions_are_over_the_point s :
  Forall point_reduction (ee_log s) ->
  Forall point_reduction (ee_log (update_json w s).2).
Proof.
  revert s. change (preserves (fun s => Forall point_reduction (ee_log s))
                              (update_json w)).
  unfold update_json.
  apply preserves_bind;
    [ apply (keeps_preserves ee_log _), initialize_ee_keeps_ee | intros _ ].
  apply preserves_bind;
    [ apply (keeps_preserves ee_log (Forall point_reduction)); walk | intros now ].
  apply preserves_bind; [ apply section_current_point | intros current ].
  apply preserves_bind; [ apply section_annual_point | intros annual ].
  apply preserves_bind;
    [ apply (keeps_preserves ee_log _), append_history_keeps_ee | intros hist ].
  apply preserves_bind;
    [ apply (keeps_preserves ee_log _), section_write_keeps_ee | intros _ ].
  apply (keeps_preserves ee_log _), section_upload_keeps_ee.
Qed.

(** *** Missing credentials *)

Lemma section_upload_without_token s :
  not_token (getenv w "GITHUB_TOKEN") = true ->
  section_upload w s =
  (Raise (Exn RuntimeError "GITHUB_TOKEN environment variable not set."), s).
Proof. intros H. unfold section_upload, bind. by rewrite H. Qed.

Lemma update_json_without_token s :
  not_token (getenv w "GITHUB_TOKEN") = true ->
  ∃ e, (update_json w s).1 = Raise e ∧ gh_log (update_json w s).2 = gh_log s.
Proof.
  intros Htoken.
  assert (Hfails : fails (section_upload w)).
  { intros s'. rewrite section_upload_without_token by done. by eexists. }
  assert (Hkeeps : keeps gh_log (section_upload w)).
  { intros s'. by rewrite section_upload_without_token. }
  assert (fails (update_json w) ∧ keeps gh_log (update_json w)) as [Hf Hk].
  - unfold update_json. split.
    + do 6 (apply fails_bind_r; intros ?). exact Hfails.
    + pose proof initialize_ee_keeps_gh. pose proof section_current_keeps_gh.
      pose proof section_annual_keeps_gh. pose proof append_history_keeps_gh.
      pose proof section_write_keeps_gh. walk.
  - destruct (Hf s) as [e He]. exists e. split; [ exact He | apply Hk ].
Qed.

(** Without the repository token, [update_json.py] ends by raising and
    has sent nothing to the repository; without the service account
    variable, [authenticate.py] raises [KeyError] at its first statement,
    before any session is opened. *)
Lemma missing_credentials_abort s :
  (getenv w "GITHUB_TOKEN" = None ->
   ∃ e, (update_json w s).1 = Raise e ∧
        gh_log (update_json w s).2 = gh_log s) ∧
  (getenv w "EE_SERVICE_ACCOUNT" = None ->
   authenticate w s = (Raise (Exn KeyError "EE_SERVICE_ACCOUNT"), s)).
Proof.
  split.
  - intros Habsent. apply update_json_without_token. by rewrite Habsent.
  - intros Habsent. unfold authenticate, bind, lift. by rewrite Habsent.
Qed.

End Run.

(** ** The publisher *)

Section Publisher.

Variable w : world.
Implicit Types (s : state) (path local : string) (t : text).

(** The fall-back of [upload_json], entered with the calls [h] made. *)
Lemma create_branch_run path t s :
  try_except
    (create_file w path ("Create " +:+ Py.basename path) t;;
     print ["✓ Created"; path])
    (fun e2 => print ["✖ Failed to upload"; path; ":"; exn_msg e2]) s =
  (Ret tt,
   State (fs s) (ticks s) (ee_log s)
     (gh_log s ++ [CreateFile path ("Create " +:+ Py.basename path) t])
     (stdout s ++
        [match gh_create_file w (gh_log s) path
                 ("Create " +:+ Py.basename path) t with
         | Ret _ => "✓ Created " +:+ path
         | Raise e2 => "✖ Failed to upload " +:+ path +:+ " : " +:+ exn_msg e2
         end])).
Proof.
  unfold try_except, bind, create_file, print, log_gh. simpl.
  destruct (gh_create_file w (gh_log s) path _ t) as [[] | e2]; reflexivity.
Qed.

(** The protected part of [upload_json]: fetch, then update. *)
Lemma update_branch_found path t s c :
  gh_get_contents w (gh_log s) path = Ret c ->
  let s1 := State (fs s) (ticks s) (ee_log s) (gh_log s ++ [GetContents path])
                  (stdout s) in
  let call := UpdateFile (cf_path c) ("Auto-update " +:+ Py.basename path) t
                         (cf_sha c) in
  let s2 := State (fs s) (ticks s) (ee_log s) (gh_log s1 ++ [call])
                  (stdout s) in
  (let! contents := get_contents w path in
   update_file w (cf_path contents) ("Auto-update " +:+ Py.basename path) t
               (cf_sha contents);;
   print ["✓ Updated"; path]) s =
  match gh_update_file w (gh_log s1) (cf_path c)
          ("Auto-update " +:+ Py.basename path) t (cf_sha c) with
  | Ret _ => (Ret tt, State (fs s) (ticks s) (ee_log s) (gh_log s2)
                            (stdout s ++ ["✓ Updated " +:+ path]))
  | Raise e => (Raise e, s2)
  end.
Proof.
  intros Hget s1 call s2.
  rewrite (bind_ret _ _ s c s1) by (unfold get_contents; by rewrite Hget).
  destruct (gh_update_file w (gh_log s1) (cf_path c) _ t (cf_sha c))
    as [[] | e] eqn:Hupd.
  - rewrite (bind_ret _ _ s1 tt s2) by (unfold update_file; by rewrite Hupd).
    reflexivity.
  - apply bind_raise. unfold update_file. by rewrite Hupd.
Qed.

Lemma update_branch_not_found path t s e :
  gh_get_contents w (gh_log s) path = Raise e ->
  (let! contents := get_contents w path in
   update_file w (cf_path contents) ("Auto-update " +:+ Py.basename path) t
               (cf_sha contents);;
   print ["✓ Updated"; path]) s =
  (Raise e, State (fs s) (ticks s) (ee_log s) (gh_log s ++ [GetContents path])
                  (stdout s)).
Proof.
  intros Hget. apply bind_raise. unfold get_contents. by rewrite Hget.
Qed.

Lemma upload_json_open path local s t :
  fs s !! local = Some (Text t) ->
  upload_json w path local s =
  try_except
    (let! contents := get_contents w path in
     update_file w (cf_path contents) ("Auto-update " +:+ Py.basename path) t
                 (cf_sha contents);;
     print ["✓ Updated"; path])
    (fun e =>
       try_except
         (create_file w path ("Create " +:+ Py.basename path) t;;
          print ["✓ Created"; path])
         (fun e2 => print ["✖ Failed to upload"; path; ":"; exn_msg e2])) s.
Proof.
  intros Hfile. unfold upload_json.
  rewrite (bind_ret (open_read local) _ s t s); [ reflexivity | ].
  unfold open_read. by rewrite Hfile.
Qed.

Lemma upload_json_found path local s t c :
  fs s !! local = Some (Text t) ->
  gh_get_contents w (gh_log s) path = Ret c ->
  ∃ s' rest,
    upload_json w path local s = (Ret tt, s') ∧
    fs s' = fs s ∧
    gh_log s' =
    gh_log s ++
      [GetContents path;
       UpdateFile (cf_path c) ("Auto-update " +:+ Py.basename path) t (cf_sha c)]
      ++ rest.
Proof.
  intros Hfile Hget. rewrite (upload_json_open _ _ _ t) by done.
  pose proof (update_branch_found path t s c Hget) as Hrun. cbv zeta in Hrun.
  destruct (gh_update_file w _ (cf_path c) _ t (cf_sha c)) as [[] | e].
  - rewrite (try_ret _ _ _ _ _ Hrun). eexists. exists [].
    split; [ reflexivity | ]. split; [ done | ].
    simpl. by rewrite <- app_assoc.
  - rewrite (try_raise _ _ _ _ _ Hrun), create_branch_run. do 2 eexists.
    simpl. split; [ reflexivity | ]. split; [ done | ].
    by rewrite <- !app_assoc.
Qed.

Lemma upload_json_not_found path local s t e :
  fs s !! local = Some (Text t) ->
  gh_get_contents w (gh_log s) path = Raise e ->
  upload_json w path local s =
  (Ret tt,
   State (fs s) (ticks s) (ee_log s)
     (gh_log s ++
        [GetContents path; CreateFile path ("Create " +:+ Py.basename path) t])
     (stdout s ++
        [match gh_create_file w (gh_log s ++ [GetContents path]) path
                 ("Create " +:+ Py.basename path) t with
         | Ret _ => "✓ Created " +:+ path
         | Raise e2 => "✖ Failed to upload " +:+ path +:+ " : " +:+ exn_msg e2
         end])).
Proof.
  intros Hfile Hget. rewrite (upload_json_open _ _ _ t) by done.
  rewrite (try_raise _ _ _ _ _ (update_branch_not_found path t s e Hget)).
  rewrite create_branch_run. simpl. by rewrite <- app_assoc.
Qed.

Lemma upload_json_returns path local s t :
  fs s !! local = Some (Text t) ->
  ∃ s' rest,
    upload_json w path local s = (Ret tt, s') ∧
    fs s' = fs s ∧
    gh_log s' = gh_log s ++ GetContents path :: rest.
Proof.
  intros Hfile.
  destruct (gh_get_contents w (gh_log s) path) as [c | e] eqn:Hget.
  - destruct (upload_json_found path local s t c Hfile Hget)
      as (s' & rest & Hrun & Hfs & Hlog).
    exists s'. eexists. split; [ done | ]. split; [ done | ].
    rewrite Hlog. reflexivity.
  - rewrite (upload_json_not_found path local s t e Hfile Hget).
    do 2 eexists. split; [ reflexivity | ]. split; [ done | ]. reflexivity.
Qed.

Lemma section_upload_attempts_all s :
  not_token (getenv w "GITHUB_TOKEN") = false ->
  gh_get_repo w (gh_log s) REPO_NAME = Ret tt ->
  Forall (fun u => ∃ t, fs s !! u.2 = Some (Text t)) uploads ->
  (section_upload w s).1 = Ret tt ∧
  Forall (fun u => GetContents u.1 ∈ gh_log (section_upload w s).2) uploads.
Proof.
  intros Htoken Hrepo Hfiles. unfold uploads in *.
  apply Forall_cons in Hfiles as [[t1 F1] Hfiles].
  apply Forall_cons in Hfiles as [[t2 F2] Hfiles].
  apply Forall_cons in Hfiles as [[t3 F3] Hfiles].
  apply Forall_cons in Hfiles as [[t4 F4] _]. simpl in F1, F2, F3, F4.
  unfold section_upload. rewrite Htoken.
  rewrite (bind_ret (ret tt) _ s tt s) by done.
  set (s0 := State (fs s) (ticks s) (ee_log s)
                   (gh_log s ++ [GetRepo REPO_NAME]) (stdout s)).
  rewrite (bind_ret (get_repo w REPO_NAME) _ s tt s0)
    by (unfold get_repo; by rewrite Hrepo).
  destruct (upload_json_returns OUT_CURRENT "current.json" s0 t1 F1)
    as (s1 & r1 & Hrun1 & Hfs1 & Hlog1).
  rewrite (bind_ret _ _ s0 tt s1 Hrun1).
  destruct (upload_json_returns OUT_ANNUAL_PM25 "annual_pm25.json" s1 t2)
    as (s2 & r2 & Hrun2 & Hfs2 & Hlog2); [ rewrite Hfs1; exact F2 | ].
  rewrite (bind_ret _ _ s1 tt s2 Hrun2).
  destruct (upload_json_returns OUT_ANNUAL_TEMP "annual_temperature.json"
              s2 t3) as (s3 & r3 & Hrun3 & Hfs3 & Hlog3);
    [ rewrite Hfs2, Hfs1; exact F3 | ].
  rewrite (bind_ret _ _ s2 tt s3 Hrun3).
  destruct (upload_json_returns OUT_HISTORY HISTORY_LOCAL s3 t4)
    as (s4 & r4 & Hrun4 & Hfs4 & Hlog4);
    [ rewrite Hfs3, Hfs2, Hfs1; exact F4 | ].
  rewrite (bind_ret _ _ s3 tt s4 Hrun4).
  unfold print. cbn [fst snd gh_log].
  split; [ done | ].
  rewrite Hlog4, Hlog3, Hlog2, Hlog1.
  repeat apply Forall_cons_2; [ .. | apply Forall_nil_2 ]; cbn [fst];
    rewrite !elem_of_app, !elem_of_cons; tauto.
Qed.

Lemma upload_json_exact path local s t :
  fs s !! local = Some (Text t) ->
  ∃ s', upload_json w path local s = (Ret tt, s') ∧
        fs s' = fs s ∧
        gh_log s' = gh_log s ++ upload_calls w (gh_log s) path t.
Proof.
  intros Hfile. unfold upload_calls. cbv zeta.
  destruct (gh_get_contents w (gh_log s) path) as [c | e] eqn:Hget.
  - rewrite (upload_json_open _ _ _ t) by done.
    pose proof (update_branch_found path t s c Hget) as Hrun.
    cbv zeta in Hrun. cbn [gh_log] in Hrun.
    destruct (gh_update_file w _ (cf_path c) _ t (cf_sha c)) as [[] | e].
    + rewrite (try_ret _ _ _ _ _ Hrun). eexists.
      split; [ reflexivity | ]. split; [ done | ].
      cbn [gh_log]. by rewrite <- app_assoc.
    + rewrite (try_raise _ _ _ _ _ Hrun), create_branch_run. eexists.
      split; [ reflexivity | ]. split; [ done | ].
      cbn [gh_log]. by rewrite <- !app_assoc.
  - rewrite (upload_json_not_found path local s t e Hfile Hget). eexists.
    split; [ reflexivity | ]. split; [ done | ].
    cbn [gh_log]. reflexivity.
Qed.

(** With the token set, the repository reached and the four local files
    read, the calls of the upload section are the four uploads in turn,
    each complete, and the section ends on the success message. *)
Lemma section_upload_exact s t1 t2 t3 t4 :
  not_token (getenv w "GITHUB_TOKEN") = false ->
  gh_get_repo w (gh_log s) REPO_NAME = Ret tt ->
  fs s !! "current.json" = Some (Text t1) ->
  fs s !! "annual_pm25.json" = Some (Text t2) ->
  fs s !! "annual_temperature.json" = Some (Text t3) ->
  fs s !! HISTORY_LOCAL = Some (Text t4) ->
  ∃ s', section_upload w s = (Ret tt, s') ∧
        fs s' = fs s ∧
        gh_log s' = gh_log s ++ section_calls w (gh_log s) t1 t2 t3 t4 ∧
        last (stdout s') = Some "🎉 All files uploaded.".
Proof.
  intros Htoken Hrepo F1 F2 F3 F4.
  unfold section_upload. rewrite Htoken.
  rewrite (bind_ret (ret tt) _ s tt s) by done.
  set (s0 := State (fs s) (ticks s) (ee_log s)
                   (gh_log s ++ [GetRepo REPO_NAME]) (stdout s)).
  rewrite (bind_ret (get_repo w REPO_NAME) _ s tt s0)
    by (unfold get_repo; by rewrite Hrepo).
  destruct (upload_json_exact OUT_CURRENT "current.json" s0 t1 F1)
    as (s1 & Hrun1 & Hfs1 & Hlog1).
  rewrite (bind_ret _ _ s0 tt s1 Hrun1).
  destruct (upload_json_exact OUT_ANNUAL_PM25 "annual_pm25.json" s1 t2)
    as (s2 & Hrun2 & Hfs2 & Hlog2); [ rewrite Hfs1; exact F2 | ].
  rewrite (bind_ret _ _ s1 tt s2 Hrun2).
  destruct (upload_json_exact OUT_ANNUAL_TEMP "annual_temperature.json" s2 t3)
    as (s3 & Hrun3 & Hfs3 & Hlog3); [ rewrite Hfs2, Hfs1; exact F3 | ].
  rewrite (bind_ret _ _ s2 tt s3 Hrun3).
  destruct (upload_json_exact OUT_HISTORY HISTORY_LOCAL s3 t4)
    as (s4 & Hrun4 & Hfs4 & Hlog4); [ rewrite Hfs3, Hfs2, Hfs1; exact F4 | ].
  rewrite (bind_ret _ _ s3 tt s4 Hrun4).
  eexists. split; [ reflexivity | ]. cbn [fs gh_log stdout].
  split; [ by rewrite Hfs4, Hfs3, Hfs2, Hfs1 | ].
  split; [ | apply last_snoc ].
  rewrite Hlog4, Hlog3, Hlog2, Hlog1. unfold section_calls. cbv zeta.
  change (gh_log s0) with (gh_log s ++ [GetRepo REPO_NAME]).
  rewrite <- !app_assoc. reflexivity.
Qed.

Lemma upload_calls_attempted h path t :
  attempted (upload_calls w h path t) path t.
Proof.
  unfold attempted, upload_calls. cbv zeta.
  split; [ apply list_elem_of_here | ].
  destruct (gh_get_contents w h path) as [c | e];
    [ destruct (gh_update_file w _ _ _ t _) as [[] | e] | ];
    eexists; (split; [ apply list_elem_of_further, list_elem_of_here | ]);
    repeat split.
Qed.

Lemma attempted_app_l calls more path t :
  attempted calls path t -> attempted (calls ++ more) path t.
Proof.
  intros [Hget (c & Hc & Hatt)]. split; [ | exists c; split; [ | done ] ];
    apply elem_of_app; by left.
Qed.

Lemma attempted_app_r calls more path t :
  attempted more path t -> attempted (calls ++ more) path t.
Proof.
  intros [Hget (c & Hc & Hatt)]. split; [ | exists c; split; [ | done ] ];
    apply elem_of_app; by right.
Qed.

(** Every one of the four uploads is in the calls of the section, with
    its fetch and its update or creation. *)
Lemma section_calls_attempted h t1 t2 t3 t4 :
  let calls := section_calls w h t1 t2 t3 t4 in
  attempted calls OUT_CURRENT t1 ∧
  attempted calls OUT_ANNUAL_PM25 t2 ∧
  attempted calls OUT_ANNUAL_TEMP t3 ∧
  attempted calls OUT_HISTORY t4.
Proof.
  unfold section_calls. cbv zeta.
  split; [ | split; [ | split ] ]; apply (attempted_app_r [_]).
  - apply attempted_app_l, upload_calls_attempted.
  - apply attempted_app_r, attempted_app_l, upload_calls_attempted.
  - do 2 apply attempted_app_r. apply attempted_app_l, upload_calls_attempted.
  - do 3 apply attempted_app_r. apply upload_calls_attempted.
Qed.

(** The uploads follow the writing of the same four files, so their
    local reads succeed. *)
Lemma section_upload_after_write cur a1 a2 hist s :
  let s' := (section_write cur a1 a2 hist s).2 in
  (section_write cur a1 a2 hist s).1 = Ret tt ->
  not_token (getenv w "GITHUB_TOKEN") = false ->
  gh_get_repo w (gh_log s') REPO_NAME = Ret tt ->
  (section_upload w s').1 = Ret tt ∧
  Forall (fun u => GetContents u.1 ∈ gh_log (section_upload w s').2) uploads.
Proof.
  intros s' Hwrite Htoken Hrepo.
  apply section_upload_attempts_all; [ done | done | ].
  by apply section_write_readable.
Qed.

(** C5. With its local file read, an upload always returns, so the next
    one is reached.  When the fetch answers, the document is updated under
    the fetched path with the fetched revision token and the message
    [Auto-update <filename>]; when the fetch raises, creation is tried
    with the message [Create <filename>], and a failure there is printed
    and goes no further.  With the token set and the repository reached,
    the section returns whatever happens to each document, and its calls
    are exactly the four uploads in turn: each document is fetched and
    then updated or created with the text of its local file. *)
Theorem upload_json_update_or_create path local t s :
  (fs s !! local = Some (Text t) ->
   (upload_json w path local s).1 = Ret tt ∧
   fs (upload_json w path local s).2 = fs s ∧
   match gh_get_contents w (gh_log s) path with
   | Ret c =>
       ∃ rest,
         gh_log (upload_json w path local s).2 =
         gh_log s ++
           [GetContents path;
            UpdateFile (cf_path c) ("Auto-update " +:+ Py.basename path) t
                       (cf_sha c)] ++ rest
   | Raise _ =>
       gh_log (upload_json w path local s).2 =
       gh_log s ++
         [GetContents path;
          CreateFile path ("Create " +:+ Py.basename path) t] ∧
       stdout (upload_json w path local s).2 =
       stdout s ++
         [match gh_create_file w (gh_log s ++ [GetContents path]) path
                  ("Create " +:+ Py.basename path) t with
          | Ret _ => "✓ Created " +:+ path
          | Raise e2 => "✖ Failed to upload " +:+ path +:+ " : " +:+ exn_msg e2
          end]
   end) ∧
  (not_token (getenv w "GITHUB_TOKEN") = false ->
   gh_get_repo w (gh_log s) REPO_NAME = Ret tt ->
   Forall (fun u => ∃ t', fs s !! u.2 = Some (Text t')) uploads ->
   (section_upload w s).1 = Ret tt ∧
   Forall (fun u => GetContents u.1 ∈ gh_log (section_upload w s).2) uploads ∧
   ∃ t1 t2 t3 t4,
     fs s !! "current.json" = Some (Text t1) ∧
     fs s !! "annual_pm25.json" = Some (Text t2) ∧
     fs s !! "annual_temperature.json" = Some (Text t3) ∧
     fs s !! HISTORY_LOCAL = Some (Text t4) ∧
     let calls := section_calls w (gh_log s) t1 t2 t3 t4 in
     gh_log (section_upload w s).2 = gh_log s ++ calls ∧
     attempted calls OUT_CURRENT t1 ∧
     attempted calls OUT_ANNUAL_PM25 t2 ∧
     attempted calls OUT_ANNUAL_TEMP t3 ∧
     attempted calls OUT_HISTORY t4).
Proof.
  split.
  - intros Hfile.
    destruct (gh_get_contents w (gh_log s) path) as [c | e] eqn:Hget.
    + destruct (upload_json_found path local s t c Hfile Hget)
        as (s' & rest & -> & Hfs & Hlog).
      split; [ done | ]. split; [ done | ]. by exists rest.
    + by rewrite (upload_json_not_found path local s t e Hfile Hget).
  - intros Htoken Hrepo Hfiles.
    destruct (section_upload_attempts_all s Htoken Hrepo Hfiles)
      as [Hret Hfetched].
    split; [ done | ]. split; [ done | ].
    unfold uploads in Hfiles.
    apply Forall_cons in Hfiles as [[t1 F1] Hfiles].
    apply Forall_cons in Hfiles as [[t2 F2] Hfiles].
    apply Forall_cons in Hfiles as [[t3 F3] Hfiles].
    apply Forall_cons in Hfiles as [[t4 F4] _]. simpl in F1, F2, F3, F4.
    exists t1, t2, t3, t4. do 4 (split; [ done | ]).
    destruct (section_upload_exact s t1 t2 t3 t4 Htoken Hrepo F1 F2 F3 F4)
      as (s' & Hrun & _ & Hlog & _).
    cbv zeta. rewrite Hrun. split; [ exact Hlog | ].
    apply section_calls_attempted.
Qed.

End Publisher.

(** ** Timestamps *)

Section Timestamps.

Implicit Types (t : datetime) (n width : nat) (rest : string).

Lemma append_cons (x : ascii) (a b : string) :
  String x a +:+ b = String x (a +:+ b).
Proof. reflexivity. Qed.

Lemma append_assoc (a b c : string) : (a +:+ b) +:+ c = a +:+ b +:+ c.
Proof.
  induction a as [ | x a IH]; [ reflexivity | ].
  by rewrite !append_cons, IH.
Qed.

Lemma append_empty_r (a : string) : a +:+ EmptyString = a.
Proof.
  induction a as [ | x a IH]; [ reflexivity | ].
  by rewrite append_cons, IH.
Qed.

Lemma is_digit_digit n : Iso8601.is_digit (Clock.digit n) = true.
Proof.
  unfold Clock.digit.
  pose proof (Nat.mod_upper_bound n 10 ltac:(lia)) as Hlt.
  destruct (n mod 10) as [ | [ | [ | [ | [ | [ | [ | [ | [ | [ | r]]]]]]]]]];
    reflexivity.
Qed.

Lemma expect_digits_digits width n rest :
  Iso8601.expect_digits width (Clock.digits width n +:+ rest) = Some rest.
Proof.
  induction width as [ | width IH]; [ reflexivity | ].
  cbn [Clock.digits]. rewrite append_cons. cbn [Iso8601.expect_digits].
  by rewrite is_digit_digit.
Qed.

Lemma skip_digits_digits width n rest :
  Iso8601.skip_digits (Clock.digits width n +:+ rest)
  = Iso8601.skip_digits rest.
Proof.
  induction width as [ | width IH]; [ reflexivity | ].
  cbn [Clock.digits]. rewrite append_cons. cbn [Iso8601.skip_digits].
  by rewrite is_digit_digit.
Qed.

Lemma expect_char_here (c : ascii) rest :
  Iso8601.expect_char c (String c EmptyString +:+ rest) = Some rest.
Proof.
  rewrite append_cons. unfold Iso8601.expect_char.
  by rewrite Ascii.eqb_refl.
Qed.

Lemma date_and_time_isoformat t (suffix : string) :
  Iso8601.date_and_time (Clock.isoformat t +:+ suffix)
  = Some (tail_of t ("+00:00" +:+ suffix)).
Proof.
  unfold Clock.isoformat, tail_of, Iso8601.date_and_time.
  rewrite !append_assoc.
  cbn [foldl Iso8601.and_then].
  repeat (rewrite ?expect_digits_digits, ?expect_char_here;
          progress cbn [Iso8601.and_then]).
  apply expect_digits_digits.
Qed.

Lemma fraction_and_zone_tail t (zone : string) :
  Iso8601.skip_digits zone = zone ->
  Iso8601.expect_char "." zone = None ->
  Iso8601.fraction_and_zone (tail_of t zone) = Iso8601.utc_designator zone.
Proof.
  intros Hskip Hdot. unfold tail_of, Iso8601.fraction_and_zone.
  destruct (microsecond t =? 0).
  - change (EmptyString +:+ zone) with zone. by rewrite Hdot.
  - rewrite append_assoc, expect_char_here.
    change (Clock.digits 6 (microsecond t)) with
      (String (Clock.digit (microsecond t / 10 ^ 5))
              (Clock.digits 5 (microsecond t))).
    rewrite append_cons. cbn [Iso8601.expect_digits].
    by rewrite is_digit_digit, skip_digits_digits, Hskip.
Qed.

(** The bare [isoformat()] of the clock reading has the layout. *)
Lemma isoformat_is_iso8601 t :
  Iso8601.utc_timestamp (Clock.isoformat t) = true.
Proof.
  unfold Iso8601.utc_timestamp.
  rewrite <- (append_empty_r (Clock.isoformat t)).
  rewrite date_and_time_isoformat. by rewrite fraction_and_zone_tail.
Qed.

(** With the letter appended it has two zone designators, and has not. *)
Lemma isoformat_Z_is_not_iso8601 t :
  Iso8601.utc_timestamp (Clock.isoformat t +:+ "Z") = false.
Proof.
  unfold Iso8601.utc_timestamp.
  rewrite date_and_time_isoformat. by rewrite fraction_and_zone_tail.
Qed.

End Timestamps.

(** C9 fails on the code.  The timestamp of every reading is the
    [isoformat()] of an aware UTC clock reading, which already ends with
    the offset [+00:00], followed by the letter [Z]: a text with two zone
    designators, which is not an ISO 8601 timestamp. *)
Theorem now_iso_is_not_iso8601 (w : world) (s : state) :
  let t := utcnow w (ticks s) in
  (now_iso w s).1 = Ret (Clock.isoformat t +:+ "Z") ∧
  (∃ prefix, Clock.isoformat t +:+ "Z" = prefix +:+ "+00:00Z") ∧
  Iso8601.utc_timestamp (Clock.isoformat t +:+ "Z") = false ∧
  Iso8601.utc_timestamp (Clock.isoformat t) = true.
Proof.
  intros t. split; [ reflexivity | ].
  split; [ | split; [ apply isoformat_Z_is_not_iso8601
                    | apply isoformat_is_iso8601 ] ].
  unfold Clock.isoformat. rewrite !append_assoc.
  repeat match goal with
         | |- context [?a +:+ ?b +:+ "+00:00" +:+ "Z"] =>
             rewrite <- (append_assoc a b ("+00:00" +:+ "Z"))
         end.
  eexists. reflexivity.
Qed.

(** The reading of a run at 09:33:12.123456 UTC on 3 November 2026. *)
Lemma now_iso_sample :
  (now_iso Sample.offline (State ∅ 1 [] [] [])).1
  = Ret "2026-11-03T09:33:12.123456+00:00Z".
Proof. reflexivity. Qed.

(** ** Concrete runs of the ledger *)

Lemma append_history_bounded_fifo_witness :
  let full := Sample.entry <$> seqZ 0 200 in
  let s := Sample.with_files
             {[ "history.json" := Text (JsonText (JArr full)) ]} in
  ∃ hist' : list json,
    (append_history "history.json" Sample.reading HISTORY_MAX s).1
      = Ret (JArr hist') ∧
    length hist' = 200 ∧
    hist' !! 0 = Some (Sample.entry 1) ∧
    last hist' = Some (JObj [("ts", JStr "T1"); ("pm25", JNum 10);
                             ("temp", JNum 20)]).
Proof.
  intros full s.
  destruct (append_history_bounded_fifo "history.json" Sample.reading s full
              (JStr "T1") (JNum 10) (JNum 20))
    as (hist' & Hret & _ & _ & _ & Hfull & _).
  - vm_compute. reflexivity.
  - vm_compute. discriminate.
  - reflexivity.
  - reflexivity.
  - reflexivity.
  - exists hist'. destruct Hfull as (Hlen & Hhead & Hlast).
    + vm_compute. reflexivity.
    + repeat split; assumption.
Defined.

Lemma read_local_history_swallows_witness :
  read_local_history "history.json" Sample.fresh = (Ret (JArr []), Sample.fresh).
Proof.
  apply (read_local_history_swallows "history.json" Sample.fresh).
  left. reflexivity.
Defined.

Lemma read_local_history_not_a_list_witness :
  let s := Sample.with_files
             {[ "history.json" := Text (JsonText (JObj [("a", JInt 1)])) ]} in
  read_local_history "history.json" s = (Ret (JObj [("a", JInt 1)]), s) ∧
  ∃ e, exn_kind e = AttributeError ∧
       append_history "history.json" Sample.reading HISTORY_MAX s = (Raise e, s).
Proof.
  intros s.
  destruct (read_local_history_not_a_list "history.json" s
              (JObj [("a", JInt 1)]) Sample.reading HISTORY_MAX) as [Hread Happ].
  - vm_compute. reflexivity.
  - split; [ exact Hread | apply Happ; reflexivity ].
Defined.

Lemma absent_reduction_is_published_null_witness :
  ∃ current,
    (section_current Sample.offline (EE.Date "2026-11-03") Sample.fresh).1
      = Ret current ∧
    Py.get current "pm25_ugm3" = Some JNull ∧
    Py.get current "temperature_c" = Some JNull.
Proof.
  destruct (absent_reduction_is_published_null Sample.offline
              (EE.Date "2026-11-03") Sample.fresh)
    as [(current & Hret & Hpm & Htemp) _].
  exists current. split; [ exact Hret | ].
  split; [ apply Hpm | apply Htemp ]; reflexivity.
Defined.

(** ** Concrete runs of the script *)

(** C6, as stated, fails: in a run the reductions are sent with the bare
    point as their geometry, not with the point buffered by 20 km. *)
Lemma reduction_geometry_is_not_buffered :
  ¬ (∀ (w : world) (s : state),
       Forall (fun rr => EE.rr_geometry rr = EE.Buffer POINT BUFFER_M)
              (ee_log (update_json w s).2)).
Proof.
  intros H. specialize (H Sample.offline Sample.fresh).
  vm_compute in H.
  inversion H as [ | rr l Hhead Htail]. discriminate Hhead.
Qed.

Lemma reductions_are_over_the_point_witness :
  let r := update_json Sample.offline Sample.fresh in
  length (ee_log r.2) = 4 ∧ Forall point_reduction (ee_log r.2).
Proof.
  split.
  - vm_compute. reflexivity.
  - apply (reductions_are_over_the_point Sample.offline Sample.fresh).
    constructor.
Defined.

(** Without the token the error is the one of the token check, and by
    then the local files, the history among them, are written. *)
Lemma update_json_without_token_sample :
  let r := update_json Sample.offline Sample.fresh in
  r.1 = Raise (Exn RuntimeError "GITHUB_TOKEN environment variable not set.") ∧
  Forall (fun u => ∃ t, fs r.2 !! u.2 = Some (Text t)) uploads ∧
  stdout r.2 = ["✓ EE initialized"; "✓ Local files written"].
Proof.
  split; [ vm_compute; reflexivity | ].
  split; [ | vm_compute; reflexivity ].
  repeat constructor; eexists; vm_compute; reflexivity.
Qed.

Lemma upload_json_update_or_create_witness :
  let s := Sample.written in
  (∃ rest,
     gh_log (upload_json Sample.online OUT_CURRENT "current.json" s).2 =
     [ GetContents "data/current.json";
       UpdateFile "data/current.json" "Auto-update current.json"
                  (JsonText (JObj Sample.reading)) "3f2a" ] ++ rest) ∧
  (gh_log (upload_json Sample.online OUT_HISTORY HISTORY_LOCAL s).2 =
     [ GetContents "data/history.json";
       CreateFile "data/history.json" "Create history.json"
                  (JsonText (JArr [Sample.entry 0])) ] ∧
   stdout (upload_json Sample.online OUT_HISTORY HISTORY_LOCAL s).2 =
     [ "✖ Failed to upload data/history.json : 403" ]) ∧
  ((section_upload Sample.online s).1 = Ret tt ∧
   Forall (fun u => GetContents u.1 ∈ gh_log (section_upload Sample.online s).2)
          uploads ∧
   ∃ t1 t2 t3 t4,
     fs s !! "current.json" = Some (Text t1) ∧
     fs s !! "annual_pm25.json" = Some (Text t2) ∧
     fs s !! "annual_temperature.json" = Some (Text t3) ∧
     fs s !! HISTORY_LOCAL = Some (Text t4) ∧
     let calls := section_calls Sample.online (gh_log s) t1 t2 t3 t4 in
     gh_log (section_upload Sample.online s).2 = gh_log s ++ calls ∧
     attempted calls OUT_CURRENT t1 ∧
     attempted calls OUT_ANNUAL_PM25 t2 ∧
     attempted calls OUT_ANNUAL_TEMP t3 ∧
     attempted calls OUT_HISTORY t4).
Proof.
  intros s.
  destruct (upload_json_update_or_create Sample.online OUT_CURRENT
              "current.json" (JsonText (JObj Sample.reading)) s)
    as [Hone Hall].
  destruct (upload_json_update_or_create Sample.online OUT_HISTORY
              HISTORY_LOCAL (JsonText (JArr [Sample.entry 0])) s)
    as [Hhist _].
  split; [ | split ].
  - destruct Hone as (_ & _ & Hlog); [ vm_compute; reflexivity | ].
    exact Hlog.
  - destruct Hhist as (_ & _ & Hlog); [ vm_compute; reflexivity | ].
    exact Hlog.
  - apply Hall; [ reflexivity | reflexivity | ].
    repeat constructor; eexists; vm_compute; reflexivity.
Defined.

(** * Further properties of the code *)

(** ** The ledger beyond its cap of 200 *)

Section Ledger.

Implicit Types (s : state) (path : string) (cur : dict json) (maxlen : Z).

(** Whenever [append_history] returns, the history had loaded as a list,
    the reading had its three keys, and the value returned is the one
    stored. *)
Lemma append_history_ret_inv path cur maxlen s v s' :
  append_history path cur maxlen s = (Ret v, s') ->
  ∃ hist ts pm25 temp,
    read_local_history path s = (Ret (JArr hist), s) ∧
    Py.get cur "timestamp_utc" = Some ts ∧
    Py.get cur "pm25_ugm3" = Some pm25 ∧
    Py.get cur "temperature_c" = Some temp ∧
    v = JArr (Py.slice_from (- maxlen)
                (hist ++ [JObj [("ts", ts); ("pm25", pm25); ("temp", temp)]])) ∧
    s' = State (<[path := Text (JsonText v)]> (fs s)) (ticks s) (ee_log s)
               (gh_log s) (stdout s).
Proof.
  unfold append_history, bind at 1. rewrite read_local_history_spec.
  set (loaded := match fs s !! path with
                 | Some (Text (JsonText v0)) => v0
                 | _ => JArr []
                 end).
  unfold bind, lift, Py.getitem.
  destruct loaded as [ | | | | | hist | ]; simpl; try discriminate.
  destruct (Py.get cur "timestamp_utc") as [ts | ]; [ | discriminate ].
  destruct (Py.get cur "pm25_ugm3") as [pm25 | ]; [ | discriminate ].
  destruct (Py.get cur "temperature_c") as [temp | ]; [ | discriminate ].
  unfold open_write_dump, ret.
  destruct (fs s !! path) as [[ | t] | ]; intros [= <- <-];
    by exists hist, ts, pm25, temp.
Qed.

(** X1. What [append_history] returns is what a later
    [read_local_history] of the same path loads. *)
Theorem append_history_then_read path cur maxlen s v s' :
  append_history path cur maxlen s = (Ret v, s') ->
  read_local_history path s' = (Ret v, s').
Proof.
  intros Happ.
  destruct (append_history_ret_inv _ _ _ _ _ _ Happ)
    as (hist & ts & pm25 & temp & _ & _ & _ & _ & _ & ->).
  rewrite read_local_history_spec. cbn [fs].
  by rewrite lookup_insert_eq.
Qed.

(** X2. The cap is applied as the slice [hist[-maxlen:]]: a positive cap
    keeps the last [maxlen] entries, a cap of zero keeps every entry (the
    slice [hist[-0:]] is the whole list), and a negative cap [-k] drops
    the [k] oldest entries instead. *)
Theorem append_history_cap path cur s hist ts pm25 temp maxlen :
  read_local_history path s = (Ret (JArr hist), s) ->
  fs s !! path ≠ Some NoAccess ->
  Py.get cur "timestamp_utc" = Some ts ->
  Py.get cur "pm25_ugm3" = Some pm25 ->
  Py.get cur "temperature_c" = Some temp ->
  let new := JObj [("ts", ts); ("pm25", pm25); ("temp", temp)] in
  let n := length hist + 1 in
  (append_history path cur maxlen s).1 =
  Ret (JArr (if decide (0 < maxlen)%Z
             then drop (n - Z.to_nat maxlen) (hist ++ [new])
             else if decide (maxlen = 0)%Z
                  then hist ++ [new]
                  else drop (Z.to_nat (- maxlen)) (hist ++ [new]))).
Proof.
  intros Hread Hacc Hts Hpm Htemp new n.
  rewrite (append_history_list path cur maxlen s hist ts pm25 temp)
    by assumption.
  cbn [fst]. fold new. do 2 f_equal.
  assert (Hn : length (hist ++ [new]) = n)
    by (rewrite length_app; reflexivity).
  repeat case_decide.
  - replace maxlen with (Z.of_nat (Z.to_nat maxlen)) at 1 by lia.
    rewrite slice_from_neg by lia. by rewrite Hn.
  - subst maxlen. apply slice_from_zero.
  - unfold Py.slice_from. rewrite Hn.
    destruct (Z.ltb_spec (- maxlen) 0) as [? | _]; [ lia | ].
    destruct (decide (- maxlen ≤ Z.of_nat n)%Z) as [Hle | Hgt].
    + f_equal. lia.
    + rewrite !drop_ge by (rewrite Hn; lia). reflexivity.
Qed.

(** X3. A reading without one of its three keys makes [append_history]
    raise [KeyError], with the history file left as it was. *)
Theorem append_history_missing_key path cur maxlen s hist :
  read_local_history path s = (Ret (JArr hist), s) ->
  Py.get cur "timestamp_utc" = None ∨
  Py.get cur "pm25_ugm3" = None ∨
  Py.get cur "temperature_c" = None ->
  ∃ key, append_history path cur maxlen s = (Raise (Exn KeyError key), s).
Proof.
  intros Hread Hmiss.
  unfold append_history, bind at 1. rewrite Hread.
  unfold bind, lift, Py.getitem. simpl.
  destruct (Py.get cur "timestamp_utc") as [ts | ]; [ | by eexists ].
  destruct (Py.get cur "pm25_ugm3") as [pm25 | ]; [ | by eexists ].
  destruct (Py.get cur "temperature_c") as [temp | ]; [ | by eexists ].
  destruct Hmiss as [? | [? | ?]]; discriminate.
Qed.

Lemma slice_from_twice {A : Type} (l : list A) (y : A) (m : nat) :
  0 < m ->
  Py.slice_from (- Z.of_nat m) (Py.slice_from (- Z.of_nat m) l ++ [y])
  = Py.slice_from (- Z.of_nat m) (l ++ [y]).
Proof.
  intros Hm.
  rewrite (slice_from_snoc (Py.slice_from (- Z.of_nat m) l)) by done.
  rewrite (slice_from_snoc l) by done.
  rewrite slice_from_neg by done.
  rewrite drop_drop, length_drop. do 2 f_equal. lia.
Qed.

(** X4. Nothing removes duplicates: appending the same reading twice
    stores it twice.  The two appends together are one cut of the history
    with both entries at its end. *)
Theorem append_history_twice path cur s hist ts pm25 temp (m : nat) :
  read_local_history path s = (Ret (JArr hist), s) ->
  fs s !! path ≠ Some NoAccess ->
  Py.get cur "timestamp_utc" = Some ts ->
  Py.get cur "pm25_ugm3" = Some pm25 ->
  Py.get cur "temperature_c" = Some temp ->
  2 ≤ m ->
  let new := JObj [("ts", ts); ("pm25", pm25); ("temp", temp)] in
  let twice := (append_history path cur (Z.of_nat m);;
                append_history path cur (Z.of_nat m)) in
  (twice s).1
    = Ret (JArr (Py.slice_from (- Z.of_nat m) (hist ++ [new; new]))) ∧
  ∃ front, Py.slice_from (- Z.of_nat m) (hist ++ [new; new])
           = front ++ [new; new].
Proof.
  intros Hread Hacc Hts Hpm Htemp Hm new twice. split.
  - pose proof (append_history_list path cur (Z.of_nat m) s hist ts pm25 temp
                  Hread Hacc Hts Hpm Htemp) as Hfirst.
    cbv zeta in Hfirst. fold new in Hfirst.
    subst twice. rewrite (bind_ret _ _ _ _ _ Hfirst).
    rewrite (append_history_list path cur (Z.of_nat m) _
               (Py.slice_from (- Z.of_nat m) (hist ++ [new])) ts pm25 temp);
      try assumption.
    + cbn [fst]. fold new. rewrite slice_from_twice by lia.
      by rewrite <- app_assoc.
    + rewrite read_local_history_spec. cbn [fs].
      by rewrite lookup_insert_eq.
    + cbn [fs]. by rewrite lookup_insert_eq.
  - exists (drop (length hist + 2 - m) hist).
    replace (hist ++ [new; new]) with ((hist ++ [new]) ++ [new])
      by (by rewrite <- app_assoc).
    rewrite slice_from_snoc by lia.
    rewrite length_app. cbn [length].
    rewrite drop_app_le by lia.
    rewrite <- app_assoc. do 2 f_equal. lia.
Qed.

(** X11. The failure to open the history for reading is swallowed, the
    failure to open it for writing is not: on a file the process may not
    open, [append_history] loads the empty list and then raises
    [PermissionError], with nothing written. *)
Theorem append_history_unwritable path cur maxlen s ts pm25 temp :
  fs s !! path = Some NoAccess ->
  Py.get cur "timestamp_utc" = Some ts ->
  Py.get cur "pm25_ugm3" = Some pm25 ->
  Py.get cur "temperature_c" = Some temp ->
  read_local_history path s = (Ret (JArr []), s) ∧
  append_history path cur maxlen s = (Raise (Exn PermissionError path), s).
Proof.
  intros Hfile Hts Hpm Htemp.
  assert (Hread : read_local_history path s = (Ret (JArr []), s))
    by (by rewrite read_local_history_spec, Hfile).
  split; [ done | ].
  unfold append_history, bind at 1. rewrite Hread.
  unfold bind, lift, Py.getitem. simpl. rewrite Hts, Hpm, Htemp.
  unfold open_write_dump. by rewrite Hfile.
Qed.

(** X5. The script writes the history a second time, with [write_local],
    right after [append_history] has stored it: that write changes
    nothing. *)
Theorem write_local_after_append path cur maxlen s v s' :
  append_history path cur maxlen s = (Ret v, s') ->
  write_local path v s' = (Ret tt, s').
Proof.
  intros Happ.
  destruct (append_history_ret_inv _ _ _ _ _ _ Happ)
    as (hist & ts & pm25 & temp & _ & _ & _ & _ & _ & ->).
  unfold write_local, open_write_dump. cbn [fs ticks ee_log gh_log stdout].
  rewrite lookup_insert_eq. by rewrite insert_insert_eq.
Qed.

End Ledger.

(** ** The run, step by step *)

Section Steps.

Variable w : world.
Implicit Types (s : state) (ee_now : EE.date).

Lemma initialize_ee_ok s :
  ee_Initialize w = Ret tt ->
  initialize_ee w s =
  (Ret tt, State (fs s) (ticks s) (ee_log s) (gh_log s)
                 (stdout s ++ ["✓ EE initialized"])).
Proof.
  intros Hinit. unfold initialize_ee, try_except, bind, lift.
  by rewrite Hinit.
Qed.

(** X6. When [ee.Initialize()] raises, the script stops there with a
    [RuntimeError]: nothing is printed, read, written or sent. *)
Theorem initialize_failure_aborts s e :
  ee_Initialize w = Raise e ->
  update_json w s =
  (Raise (Exn RuntimeError
     "❌ EE failed to initialize. Did you run authenticate.py locally?"), s).
Proof.
  intros Hinit. unfold update_json. apply bind_raise.
  unfold initialize_ee, try_except, bind, lift. by rewrite Hinit.
Qed.

Lemma safe_reduce_mean_state img g scale s :
  ∃ s', safe_reduce_mean w img g scale s =
          (Ret (sample_of (ee_getInfo w (ee_log s) (reduction_of img g scale))),
           s') ∧
        ee_log s' = ee_log s ++ [reduction_of img g scale] ∧
        fs s' = fs s ∧ gh_log s' = gh_log s ∧ ticks s' = ticks s.
Proof.
  rewrite safe_reduce_mean_run.
  destruct (ee_getInfo w (ee_log s) (reduction_of img g scale));
    eexists; repeat split; reflexivity.
Qed.

Lemma now_iso_state s :
  ∃ s', now_iso w s = (Ret (Clock.isoformat (utcnow w (ticks s)) +:+ "Z"), s') ∧
        ee_log s' = ee_log s ∧ fs s' = fs s ∧ gh_log s' = gh_log s ∧
        ticks s' = S (ticks s).
Proof. eexists. repeat split; reflexivity. Qed.

Lemma section_current_state ee_now s :
  let rr1 := reduction_of (pm25_img_now (EE.Advance ee_now (-1) "day") ee_now)
                          POINT REDUCE_SCALE in
  let rr2 := reduction_of latest_temp_img POINT REDUCE_SCALE in
  ∃ s',
    section_current w ee_now s =
    (Ret (current_json
            (Clock.isoformat (utcnow w (ticks s)) +:+ "Z")
            (pm25_now_ug (sample_of (ee_getInfo w (ee_log s) rr1)))
            (temp_now_c (sample_of (ee_getInfo w (ee_log s ++ [rr1]) rr2)))),
     s') ∧
    ee_log s' = ee_log s ++ [rr1; rr2] ∧
    fs s' = fs s ∧ gh_log s' = gh_log s ∧ ticks s' = S (ticks s).
Proof.
  intros rr1 rr2. unfold section_current. cbv zeta. fold rr1 rr2.
  destruct (safe_reduce_mean_state
              (pm25_img_now (EE.Advance ee_now (-1) "day") ee_now)
              POINT REDUCE_SCALE s) as (s1 & H1 & L1 & F1 & G1 & T1).
  destruct (safe_reduce_mean_state latest_temp_img POINT REDUCE_SCALE s1)
    as (s2 & H2 & L2 & F2 & G2 & T2).
  destruct (now_iso_state s2) as (s3 & H3 & L3 & F3 & G3 & T3).
  exists s3. fold rr1 in H1, L1. fold rr2 in H2, L2.
  rewrite (bind_ret _ _ _ _ _ H1), (bind_ret _ _ _ _ _ H2),
    (bind_ret _ _ _ _ _ H3).
  rewrite L1, T2, T1. split; [ reflexivity | ].
  rewrite L3, L2, L1, <- app_assoc, F3, F2, F1, G3, G2, G1, T3, T2, T1.
  done.
Qed.

Lemma section_annual_state ee_now s :
  let ee_1y := EE.Advance ee_now (-365) "day" in
  let rr1 := reduction_of (cams_365_mean ee_1y ee_now) POINT REDUCE_SCALE in
  let rr2 := reduction_of (era5_365_mean ee_1y ee_now) POINT REDUCE_SCALE in
  ∃ s',
    section_annual w ee_now s =
    (Ret (annual_pm25_json
            (annual_pm25_ug (sample_of (ee_getInfo w (ee_log s) rr1)))
            (Clock.isoformat (utcnow w (ticks s)) +:+ "Z"),
          annual_temp_json
            (annual_temp_c (sample_of (ee_getInfo w (ee_log s ++ [rr1]) rr2)))
            (Clock.isoformat (utcnow w (S (ticks s))) +:+ "Z")),
     s') ∧
    ee_log s' = ee_log s ++ [rr1; rr2] ∧
    fs s' = fs s ∧ gh_log s' = gh_log s ∧ ticks s' = S (S (ticks s)).
Proof.
  intros ee_1y rr1 rr2. unfold section_annual. cbv zeta. fold ee_1y rr1 rr2.
  destruct (safe_reduce_mean_state (cams_365_mean ee_1y ee_now)
              POINT REDUCE_SCALE s) as (s1 & H1 & L1 & F1 & G1 & T1).
  destruct (now_iso_state s1) as (s2 & H2 & L2 & F2 & G2 & T2).
  destruct (safe_reduce_mean_state (era5_365_mean ee_1y ee_now)
              POINT REDUCE_SCALE s2) as (s3 & H3 & L3 & F3 & G3 & T3).
  destruct (now_iso_state s3) as (s4 & H4 & L4 & F4 & G4 & T4).
  exists s4. fold rr1 in H1, L1. fold rr2 in H3, L3.
  rewrite (bind_ret _ _ _ _ _ H1), (bind_ret _ _ _ _ _ H2),
    (bind_ret _ _ _ _ _ H3), (bind_ret _ _ _ _ _ H4).
  rewrite L2, L1, T3, T2, T1. split; [ reflexivity | ].
  rewrite L4, L3, L2, L1, <- app_assoc, F4, F3, F2, F1, G4, G3, G2, G1,
    T4, T3, T2, T1.
  done.
Qed.

End Steps.

(** ** The publisher, call by call *)

Section Calls.

Variable w : world.
Implicit Types (s : state) (path local : string) (t : text).

(** X7. The repository calls of one upload, exactly: the fetch; then the
    update, followed by a creation attempt when the update raised; or the
    creation alone when the fetch raised.  Each carries the text of the
    local file, and there is never more than one update and one creation. *)
Theorem upload_json_calls path local s t :
  fs s !! local = Some (Text t) ->
  let update c :=
    UpdateFile (cf_path c) ("Auto-update " +:+ Py.basename path) t (cf_sha c) in
  let create := CreateFile path ("Create " +:+ Py.basename path) t in
  gh_log (upload_json w path local s).2 =
  gh_log s ++ GetContents path ::
    match gh_get_contents w (gh_log s) path with
    | Ret c =>
        match gh_update_file w (gh_log s ++ [GetContents path]) (cf_path c)
                ("Auto-update " +:+ Py.basename path) t (cf_sha c) with
        | Ret _ => [update c]
        | Raise _ => [update c; create]
        end
    | Raise _ => [create]
    end.
Proof.
  intros Hfile update create.
  destruct (gh_get_contents w (gh_log s) path) as [c | e] eqn:Hget.
  - rewrite (upload_json_open w _ _ _ t) by done.
    pose proof (update_branch_found w path t s c Hget) as Hrun.
    cbv zeta in Hrun. cbn [gh_log] in Hrun.
    destruct (gh_update_file w _ (cf_path c) _ t (cf_sha c)) as [[] | e].
    + rewrite (try_ret _ _ _ _ _ Hrun). cbn [snd gh_log].
      by rewrite <- app_assoc.
    + rewrite (try_raise _ _ _ _ _ Hrun), create_branch_run. cbn [snd gh_log].
      by rewrite <- !app_assoc.
  - by rewrite (upload_json_not_found w path local s t e Hfile Hget).
Qed.

(** X8. The local file is opened outside the [try]: when it is missing,
    [upload_json] raises [FileNotFoundError] without any repository call,
    and in the script this stops the uploads that would follow. *)
Theorem upload_json_missing_local path local s :
  (fs s !! local = None ->
   upload_json w path local s = (Raise (Exn FileNotFoundError local), s)) ∧
  (fs s !! "current.json" = None ->
   not_token (getenv w "GITHUB_TOKEN") = false ->
   gh_get_repo w (gh_log s) REPO_NAME = Ret tt ->
   ∃ s', section_upload w s
         = (Raise (Exn FileNotFoundError "current.json"), s') ∧
         gh_log s' = gh_log s ++ [GetRepo REPO_NAME]).
Proof.
  assert (Hup : ∀ p l s0, fs s0 !! l = None ->
            upload_json w p l s0 = (Raise (Exn FileNotFoundError l), s0)).
  { intros p l s0 H0. unfold upload_json. apply bind_raise.
    unfold open_read. by rewrite H0. }
  split; [ by apply Hup | ].
  intros Hfile Htoken Hrepo. unfold section_upload. rewrite Htoken.
  rewrite (bind_ret (ret tt) _ s tt s) by done.
  set (s0 := State (fs s) (ticks s) (ee_log s)
                   (gh_log s ++ [GetRepo REPO_NAME]) (stdout s)).
  rewrite (bind_ret (get_repo w REPO_NAME) _ s tt s0)
    by (unfold get_repo; by rewrite Hrepo).
  exists s0. split; [ | reflexivity ].
  apply bind_raise. by apply Hup.
Qed.

(** X9. The token check reads [not TOKEN]: a variable set to the empty
    string is refused like an unset one, before any repository call. *)
Theorem empty_token_is_refused s :
  getenv w "GITHUB_TOKEN" = None ∨ getenv w "GITHUB_TOKEN" = Some EmptyString ->
  section_upload w s =
  (Raise (Exn RuntimeError "GITHUB_TOKEN environment variable not set."), s).
Proof.
  intros Htoken. apply section_upload_without_token.
  by destruct Htoken as [-> | ->].
Qed.

(** X10. [g.get_repo] is not protected: when it raises, the error leaves
    the script and no document is fetched, updated or created. *)
Theorem get_repo_failure_aborts s e :
  not_token (getenv w "GITHUB_TOKEN") = false ->
  gh_get_repo w (gh_log s) REPO_NAME = Raise e ->
  section_upload w s =
  (Raise e, State (fs s) (ticks s) (ee_log s)
                  (gh_log s ++ [GetRepo REPO_NAME]) (stdout s)).
Proof.
  intros Htoken Hrepo. unfold section_upload. rewrite Htoken.
  rewrite (bind_ret (ret tt) _ s tt s) by done.
  apply bind_raise. unfold get_repo. by rewrite Hrepo.
Qed.

(** With the token set, the repository reached and the four local files
    in place, the upload section returns and its last line is the success
    message, whatever became of each document. *)
Lemma section_upload_always_succeeds s :
  not_token (getenv w "GITHUB_TOKEN") = false ->
  gh_get_repo w (gh_log s) REPO_NAME = Ret tt ->
  Forall (fun u => ∃ t, fs s !! u.2 = Some (Text t)) uploads ->
  (section_upload w s).1 = Ret tt ∧
  last (stdout (section_upload w s).2) = Some "🎉 All files uploaded." ∧
  fs (section_upload w s).2 = fs s.
Proof.
  intros Htoken Hrepo Hfiles. unfold uploads in *.
  apply Forall_cons in Hfiles as [[t1 F1] Hfiles].
  apply Forall_cons in Hfiles as [[t2 F2] Hfiles].
  apply Forall_cons in Hfiles as [[t3 F3] Hfiles].
  apply Forall_cons in Hfiles as [[t4 F4] _]. simpl in F1, F2, F3, F4.
  unfold section_upload. rewrite Htoken.
  rewrite (bind_ret (ret tt) _ s tt s) by done.
  set (s0 := State (fs s) (ticks s) (ee_log s)
                   (gh_log s ++ [GetRepo REPO_NAME]) (stdout s)).
  rewrite (bind_ret (get_repo w REPO_NAME) _ s tt s0)
    by (unfold get_repo; by rewrite Hrepo).
  destruct (upload_json_returns w OUT_CURRENT "current.json" s0 t1 F1)
    as (s1 & r1 & Hrun1 & Hfs1 & _).
  rewrite (bind_ret _ _ s0 tt s1 Hrun1).
  destruct (upload_json_returns w OUT_ANNUAL_PM25 "annual_pm25.json" s1 t2)
    as (s2 & r2 & Hrun2 & Hfs2 & _); [ rewrite Hfs1; exact F2 | ].
  rewrite (bind_ret _ _ s1 tt s2 Hrun2).
  destruct (upload_json_returns w OUT_ANNUAL_TEMP "annual_temperature.json"
              s2 t3) as (s3 & r3 & Hrun3 & Hfs3 & _);
    [ rewrite Hfs2, Hfs1; exact F3 | ].
  rewrite (bind_ret _ _ s2 tt s3 Hrun3).
  destruct (upload_json_returns w OUT_HISTORY HISTORY_LOCAL s3 t4)
    as (s4 & r4 & Hrun4 & Hfs4 & _);
    [ rewrite Hfs3, Hfs2, Hfs1; exact F4 | ].
  rewrite (bind_ret _ _ s3 tt s4 Hrun4).
  unfold print. cbn [fst snd stdout fs].
  split; [ done | ]. split; [ apply last_snoc | ].
  by rewrite Hfs4, Hfs3, Hfs2, Hfs1.
Qed.

End Calls.

(** ** Writing the local files *)

Lemma open_write_dump_ok (path : string) obj s :
  fs s !! path ≠ Some NoAccess ->
  open_write_dump path obj s =
  (Ret tt, State (<[path := Text (JsonText obj)]> (fs s)) (ticks s)
                 (ee_log s) (gh_log s) (stdout s)).
Proof.
  intros Hacc. unfold open_write_dump.
  by destruct (fs s !! path) as [[ | t] | ].
Qed.

Lemma section_write_ok cur a1 a2 hist s :
  Forall (fun u => fs s !! u.2 ≠ Some NoAccess) uploads ->
  section_write cur a1 a2 hist s =
  (Ret tt,
   State (<[HISTORY_LOCAL := Text (JsonText hist)]>
            (<["annual_temperature.json" := Text (JsonText (JObj a2))]>
               (<["annual_pm25.json" := Text (JsonText (JObj a1))]>
                  (<["current.json" := Text (JsonText (JObj cur))]> (fs s)))))
         (ticks s) (ee_log s) (gh_log s)
         (stdout s ++ ["✓ Local files written"])).
Proof.
  intros Hfiles. unfold uploads in Hfiles.
  apply Forall_cons in Hfiles as [F1 Hfiles].
  apply Forall_cons in Hfiles as [F2 Hfiles].
  apply Forall_cons in Hfiles as [F3 Hfiles].
  apply Forall_cons in Hfiles as [F4 _]. simpl in F1, F2, F3, F4.
  unfold section_write, write_local.
  rewrite (bind_ret _ _ _ _ _ (open_write_dump_ok _ _ _ F1)).
  erewrite bind_ret;
    [ | apply open_write_dump_ok; cbn [fs]; by rewrite lookup_insert_ne ].
  erewrite bind_ret;
    [ | apply open_write_dump_ok; cbn [fs]; by rewrite !lookup_insert_ne ].
  erewrite bind_ret;
    [ | apply open_write_dump_ok; cbn [fs]; by rewrite !lookup_insert_ne ].
  reflexivity.
Qed.

(** ** Whole runs *)

Section Whole.

Variable w : world.
Implicit Types (s : state).

(** The script up to the history step, when the session opens. *)
Lemma update_json_measured s :
  ee_Initialize w = Ret tt ->
  ∃ s' pm25 temp pm25_1y temp_1y,
    let stamp k := Clock.isoformat (utcnow w (k + ticks s)) +:+ "Z" in
    let current := current_json (stamp 1) pm25 temp in
    let annual_pm25 := annual_pm25_json pm25_1y (stamp 2) in
    let annual_temp := annual_temp_json temp_1y (stamp 3) in
    update_json w s =
    (let! history := append_history HISTORY_LOCAL current HISTORY_MAX in
     section_write current annual_pm25 annual_temp history;;
     section_upload w) s' ∧
    ee_log s' = ee_log s ++ run_reductions (utcnow w (ticks s)) ∧
    fs s' = fs s ∧ gh_log s' = gh_log s.
Proof.
  intros Hinit. unfold update_json.
  rewrite (bind_ret _ _ _ _ _ (initialize_ee_ok w s Hinit)).
  set (s0 := State (fs s) (ticks s) (ee_log s) (gh_log s)
                   (stdout s ++ ["✓ EE initialized"])).
  set (s1 := State (fs s) (S (ticks s)) (ee_log s) (gh_log s) (stdout s0)).
  rewrite (bind_ret (datetime_now w) _ s0 (utcnow w (ticks s)) s1) by done.
  set (ee_now := EE.Date (Clock.isoformat (utcnow w (ticks s)))).
  destruct (section_current_state w ee_now s1)
    as (s2 & H2 & L2 & F2 & G2 & T2).
  destruct (section_annual_state w ee_now s2)
    as (s3 & H3 & L3 & F3 & G3 & T3).
  rewrite (bind_ret _ _ _ _ _ H2), (bind_ret _ _ _ _ _ H3).
  rewrite T2. cbn [ticks fst snd].
  eexists s3, _, _, _, _. split; [ reflexivity | ].
  rewrite L3, L2, F3, F2, G3, G2, <- app_assoc. done.
Qed.

(** X12. Once the session is open, every run sends the same four
    reductions in the same order, with both time windows ending at the
    first clock reading: a reduction that fails does not stop the next,
    and nothing later in the run sends another. *)
Theorem update_json_sends_four_reductions s :
  ee_Initialize w = Ret tt ->
  ee_log (update_json w s).2
  = ee_log s ++ run_reductions (utcnow w (ticks s)).
Proof.
  intros Hinit.
  destruct (update_json_measured s Hinit)
    as (s' & pm25 & temp & pm25_1y & temp_1y & Hrun & Hlog & _).
  cbv zeta in Hrun. rewrite Hrun, <- Hlog.
  apply keeps_bind; [ apply append_history_keeps_ee | intros history ].
  apply keeps_bind; [ apply section_write_keeps_ee | intros _ ].
  apply section_upload_keeps_ee.
Qed.

(** The script up to the upload section, when the session opens, the
    history loads as a list and the four local files can be written. *)
Lemma update_json_written s hist :
  ee_Initialize w = Ret tt ->
  read_local_history HISTORY_LOCAL s = (Ret (JArr hist), s) ->
  Forall (fun u => fs s !! u.2 ≠ Some NoAccess) uploads ->
  ∃ s' pm25 temp pm25_1y temp_1y,
    let stamp k := Clock.isoformat (utcnow w (k + ticks s)) +:+ "Z" in
    let new := JObj [("ts", JStr (stamp 1)); ("pm25", number_or_null pm25);
                     ("temp", number_or_null temp)] in
    let hist' := Py.slice_from (- HISTORY_MAX) (hist ++ [new]) in
    update_json w s = section_upload w s' ∧
    gh_log s' = gh_log s ∧
    fs s' =
    <[HISTORY_LOCAL := Text (JsonText (JArr hist'))]>
      (<["annual_temperature.json" :=
           Text (JsonText (JObj (annual_temp_json temp_1y (stamp 3))))]>
         (<["annual_pm25.json" :=
              Text (JsonText (JObj (annual_pm25_json pm25_1y (stamp 2))))]>
            (<["current.json" :=
                 Text (JsonText (JObj (current_json (stamp 1) pm25 temp)))]>
               (<[HISTORY_LOCAL := Text (JsonText (JArr hist'))]> (fs s))))).
Proof.
  intros Hinit Hread Hfiles.
  destruct (update_json_measured s Hinit)
    as (s1 & pm25 & temp & pm25_1y & temp_1y & Hrun & _ & Hfs & Hgh).
  cbv zeta in Hrun.
  set (stamp := fun k => Clock.isoformat (utcnow w (k + ticks s)) +:+ "Z") in *.
  assert (Hread1 : read_local_history HISTORY_LOCAL s1 = (Ret (JArr hist), s1)).
  { rewrite read_local_history_spec in Hread |- *. rewrite Hfs.
    by injection Hread as ->. }
  assert (Hacc1 : fs s1 !! HISTORY_LOCAL ≠ Some NoAccess).
  { rewrite Hfs. unfold uploads in Hfiles.
    do 3 apply Forall_cons in Hfiles as [_ Hfiles].
    by apply Forall_cons in Hfiles as [? _]. }
  pose proof (append_history_list HISTORY_LOCAL
                (current_json (stamp 1) pm25 temp)
                HISTORY_MAX s1 hist (JStr (stamp 1)) (number_or_null pm25)
                (number_or_null temp) Hread1 Hacc1 eq_refl eq_refl eq_refl)
    as Happ.
  cbv zeta in Happ.
  rewrite (bind_ret _ _ _ _ _ Happ) in Hrun.
  match type of Happ with _ = (_, ?st) => set (s2 := st) in * end.
  assert (Hacc2 : Forall (fun u => fs s2 !! u.2 ≠ Some NoAccess) uploads).
  { subst s2. cbn [fs]. rewrite Hfs. unfold uploads in *.
    apply Forall_cons in Hfiles as [F1 Hfiles].
    apply Forall_cons in Hfiles as [F2 Hfiles].
    apply Forall_cons in Hfiles as [F3 _]. simpl in F1, F2, F3.
    repeat apply Forall_cons_2; [ .. | apply Forall_nil_2 ]; cbn [snd];
      rewrite ?lookup_insert_eq, ?lookup_insert_ne by done; done. }
  rewrite (bind_ret _ _ _ _ _ (section_write_ok _ _ _ _ s2 Hacc2)) in Hrun.
  eexists _, pm25, temp, pm25_1y, temp_1y. cbv zeta.
  split; [ exact Hrun | ]. subst s2. cbn [gh_log fs]. by rewrite Hfs.
Qed.

(** X13. The token is checked after the local files are written: a run
    without it ends with the error of the check, yet has appended its
    reading to the local history, so failed runs still fill the log. *)
Theorem update_json_without_token_appends s hist :
  ee_Initialize w = Ret tt ->
  read_local_history HISTORY_LOCAL s = (Ret (JArr hist), s) ->
  Forall (fun u => fs s !! u.2 ≠ Some NoAccess) uploads ->
  not_token (getenv w "GITHUB_TOKEN") = true ->
  (update_json w s).1
    = Raise (Exn RuntimeError "GITHUB_TOKEN environment variable not set.") ∧
  ∃ new,
    read_local_history HISTORY_LOCAL (update_json w s).2 =
    (Ret (JArr (Py.slice_from (- HISTORY_MAX) (hist ++ [new]))),
     (update_json w s).2).
Proof.
  intros Hinit Hread Hfiles Htoken.
  destruct (update_json_written s hist Hinit Hread Hfiles)
    as (s' & pm25 & temp & pm25_1y & temp_1y & Hrun & _ & Hfs).
  cbv zeta in Hrun, Hfs.
  rewrite Hrun, section_upload_without_token by done.
  split; [ reflexivity | ]. eexists.
  rewrite read_local_history_spec. cbn [snd]. rewrite Hfs.
  by rewrite lookup_insert_eq.
Qed.

(** X14. A run whose session opens, whose history loads as a list, whose
    local files can be written, whose token is set and whose repository
    is reached always completes: whatever the reductions and the uploads
    do, it returns and ends on the success message, and its repository
    calls are exactly the four uploads in turn, each document fetched and
    then updated or created with the text of its local file. *)
Theorem update_json_completes s hist :
  ee_Initialize w = Ret tt ->
  read_local_history HISTORY_LOCAL s = (Ret (JArr hist), s) ->
  Forall (fun u => fs s !! u.2 ≠ Some NoAccess) uploads ->
  not_token (getenv w "GITHUB_TOKEN") = false ->
  (∀ calls, gh_get_repo w calls REPO_NAME = Ret tt) ->
  let final := (update_json w s).2 in
  (update_json w s).1 = Ret tt ∧
  Forall (fun u => GetContents u.1 ∈ gh_log final) uploads ∧
  last (stdout final) = Some "🎉 All files uploaded." ∧
  ∃ t1 t2 t3 t4,
    fs final !! "current.json" = Some (Text t1) ∧
    fs final !! "annual_pm25.json" = Some (Text t2) ∧
    fs final !! "annual_temperature.json" = Some (Text t3) ∧
    fs final !! HISTORY_LOCAL = Some (Text t4) ∧
    let calls := section_calls w (gh_log s) t1 t2 t3 t4 in
    gh_log final = gh_log s ++ calls ∧
    attempted calls OUT_CURRENT t1 ∧
    attempted calls OUT_ANNUAL_PM25 t2 ∧
    attempted calls OUT_ANNUAL_TEMP t3 ∧
    attempted calls OUT_HISTORY t4.
Proof.
  intros Hinit Hread Hfiles Htoken Hrepo final.
  destruct (update_json_written s hist Hinit Hread Hfiles)
    as (s' & pm25 & temp & pm25_1y & temp_1y & Hrun & Hgh & Hfs).
  cbv zeta in Hrun, Hfs. subst final. rewrite Hrun.
  assert (Hlocal : Forall (fun u => ∃ t, fs s' !! u.2 = Some (Text t)) uploads).
  { rewrite Hfs. unfold uploads.
    repeat apply Forall_cons_2; [ .. | apply Forall_nil_2 ]; cbn [snd];
      repeat (rewrite lookup_insert_eq || rewrite lookup_insert_ne by done);
      eauto. }
  destruct (section_upload_attempts_all w s' Htoken (Hrepo _) Hlocal)
    as [Hret Hall].
  split; [ done | ]. split; [ done | ].
  unfold uploads in Hlocal.
  apply Forall_cons in Hlocal as [[t1 F1] Hlocal].
  apply Forall_cons in Hlocal as [[t2 F2] Hlocal].
  apply Forall_cons in Hlocal as [[t3 F3] Hlocal].
  apply Forall_cons in Hlocal as [[t4 F4] _]. simpl in F1, F2, F3, F4.
  destruct (section_upload_exact w s' t1 t2 t3 t4 Htoken (Hrepo _)
              F1 F2 F3 F4) as (s'' & Hup & Hfs'' & Hlog & Hlast).
  rewrite Hup. cbn [snd]. split; [ exact Hlast | ].
  exists t1, t2, t3, t4. rewrite Hfs''. do 4 (split; [ done | ]).
  cbv zeta. rewrite <- Hgh. split; [ exact Hlog | ].
  apply section_calls_attempted.
Qed.

Lemma upload_json_keeps_fs path local : keeps fs (upload_json w path local).
Proof. unfold upload_json. walk. Qed.

Lemma section_upload_keeps_fs : keeps fs (section_upload w).
Proof.
  pose proof upload_json_keeps_fs.
  unfold section_upload. destruct (not_token _); walk.
Qed.

(** X15. After a run that got as far as writing its files, whatever
    happened to the uploads, [current.json] and the newest entry of the
    local history carry the same timestamp and the same two values. *)
Theorem current_and_history_agree s hist :
  ee_Initialize w = Ret tt ->
  read_local_history HISTORY_LOCAL s = (Ret (JArr hist), s) ->
  Forall (fun u => fs s !! u.2 ≠ Some NoAccess) uploads ->
  ∃ ts pm25 temp hist',
    fs (update_json w s).2 !! "current.json"
      = Some (Text (JsonText (JObj (current_json ts pm25 temp)))) ∧
    fs (update_json w s).2 !! HISTORY_LOCAL
      = Some (Text (JsonText (JArr hist'))) ∧
    last hist' = Some (JObj [("ts", JStr ts); ("pm25", number_or_null pm25);
                             ("temp", number_or_null temp)]).
Proof.
  intros Hinit Hread Hfiles.
  destruct (update_json_written s hist Hinit Hread Hfiles)
    as (s' & pm25 & temp & pm25_1y & temp_1y & Hrun & _ & Hfs).
  cbv zeta in Hrun, Hfs. rewrite Hrun, section_upload_keeps_fs, Hfs.
  eexists _, pm25, temp, _.
  split; [ | split ].
  - repeat (rewrite lookup_insert_eq || rewrite lookup_insert_ne by done).
    reflexivity.
  - by rewrite lookup_insert_eq.
  - change HISTORY_MAX with (Z.of_nat 200).
    rewrite slice_from_snoc by lia. apply last_snoc.
Qed.

(** X16. The three documents of a run carry three successive clock
    readings, each taken after its own reductions: all of them later than
    the reading that bounds the time windows of the data. *)
Theorem documents_carry_later_readings s hist :
  ee_Initialize w = Ret tt ->
  read_local_history HISTORY_LOCAL s = (Ret (JArr hist), s) ->
  Forall (fun u => fs s !! u.2 ≠ Some NoAccess) uploads ->
  let stamp k := Clock.isoformat (utcnow w (k + ticks s)) +:+ "Z" in
  let files := fs (update_json w s).2 in
  ee_log (update_json w s).2
    = ee_log s ++ run_reductions (utcnow w (0 + ticks s)) ∧
  ∃ pm25 temp pm25_1y temp_1y,
    files !! "current.json"
      = Some (Text (JsonText (JObj (current_json (stamp 1) pm25 temp)))) ∧
    files !! "annual_pm25.json"
      = Some (Text (JsonText (JObj (annual_pm25_json pm25_1y (stamp 2))))) ∧
    files !! "annual_temperature.json"
      = Some (Text (JsonText (JObj (annual_temp_json temp_1y (stamp 3))))).
Proof.
  intros Hinit Hread Hfiles stamp files.
  split.
  { destruct (update_json_measured s Hinit)
      as (s1 & ? & ? & ? & ? & Hrun1 & Hlog & _).
    cbv zeta in Hrun1. rewrite Hrun1. cbn [Nat.add]. rewrite <- Hlog.
    apply keeps_bind; [ apply append_history_keeps_ee | intros history ].
    apply keeps_bind; [ apply section_write_keeps_ee | intros _ ].
    apply section_upload_keeps_ee. }
  destruct (update_json_written s hist Hinit Hread Hfiles)
    as (s' & pm25 & temp & pm25_1y & temp_1y & Hrun & _ & Hfs).
  cbv zeta in Hrun, Hfs. subst files.
  rewrite Hrun, section_upload_keeps_fs, Hfs.
  exists pm25, temp, pm25_1y, temp_1y.
  repeat split;
    repeat (rewrite lookup_insert_eq || rewrite lookup_insert_ne by done);
    reflexivity.
Qed.

(** X17. Each published field depends on its own reduction alone: when a
    reduction answers a mapping whose first band holds [v], the field is
    the converted number, whatever the other reduction of the section
    did. *)
Theorem fields_follow_their_reduction ee_now s band (v : float) rest :
  let answer : outcome EE.info := Ret ((band, Some v) :: rest) in
  let ee_24h := EE.Advance ee_now (-1) "day" in
  let ee_1y := EE.Advance ee_now (-365) "day" in
  let pm25_now := reduction_of (pm25_img_now ee_24h ee_now) POINT REDUCE_SCALE in
  let temp_now := reduction_of latest_temp_img POINT REDUCE_SCALE in
  let pm25_1y := reduction_of (cams_365_mean ee_1y ee_now) POINT REDUCE_SCALE in
  let temp_1y := reduction_of (era5_365_mean ee_1y ee_now) POINT REDUCE_SCALE in
  (∃ current,
     (section_current w ee_now s).1 = Ret current ∧
     (ee_getInfo w (ee_log s) pm25_now = answer ->
      Py.get current "pm25_ugm3" = Some (JNum (PrimFloat.mul v 1e9%float))) ∧
     (ee_getInfo w (ee_log s ++ [pm25_now]) temp_now = answer ->
      Py.get current "temperature_c"
        = Some (JNum (PrimFloat.sub v 273.15%float)))) ∧
  (∃ annual_pm25 annual_temp,
     (section_annual w ee_now s).1 = Ret (annual_pm25, annual_temp) ∧
     (ee_getInfo w (ee_log s) pm25_1y = answer ->
      Py.get annual_pm25 "pm25_ugm3"
        = Some (JNum (PrimFloat.mul v 1e9%float))) ∧
     (ee_getInfo w (ee_log s ++ [pm25_1y]) temp_1y = answer ->
      Py.get annual_temp "temperature_c"
        = Some (JNum (PrimFloat.sub v 273.15%float)))).
Proof.
  cbv zeta. split.
  - destruct (section_current_state w ee_now s) as (s' & Hrun & _).
    eexists. split; [ by rewrite Hrun | ].
    unfold pm25_now_ug, temp_now_c.
    split; intros ->; cbn [sample_of]; by rewrite first_value_cons.
  - destruct (section_annual_state w ee_now s) as (s' & Hrun & _).
    do 2 eexists. split; [ by rewrite Hrun | ].
    unfold annual_pm25_ug, annual_temp_c.
    split; intros ->; cbn [sample_of]; by rewrite first_value_cons.
Qed.

(** X18. A history file that holds valid JSON other than an array stops
    the whole run: after the reductions the script raises
    [AttributeError], and no local file is written and no repository call
    made. *)
Theorem update_json_bad_history_aborts s v :
  ee_Initialize w = Ret tt ->
  fs s !! HISTORY_LOCAL = Some (Text (JsonText v)) ->
  Py.is_list v = false ->
  ∃ e, (update_json w s).1 = Raise e ∧
       exn_kind e = AttributeError ∧
       fs (update_json w s).2 = fs s ∧
       gh_log (update_json w s).2 = gh_log s.
Proof.
  intros Hinit Hfile Hv.
  destruct (update_json_measured s Hinit)
    as (s1 & pm25 & temp & pm25_1y & temp_1y & Hrun & _ & Hfs & Hgh).
  cbv zeta in Hrun. rewrite Hrun.
  assert (Hread : read_local_history HISTORY_LOCAL s1 = (Ret v, s1))
    by (by rewrite read_local_history_spec, Hfs, Hfile).
  match goal with
  | |- context [append_history ?p ?c ?m] =>
      assert (∃ e, exn_kind e = AttributeError ∧
                   append_history p c m s1 = (Raise e, s1))
        as (e & Hkind & Happ)
  end.
  { unfold append_history. rewrite (bind_ret _ _ _ _ _ Hread).
    destruct v; try discriminate Hv; eexists;
      (split; [ | reflexivity ]); reflexivity. }
  exists e. rewrite (bind_raise _ _ _ _ _ Happ). cbn [fst snd].
  by rewrite Hfs, Hgh.
Qed.

End Whole.

(** ** Missing credentials *)

Section Credentials.

Variable w : world.
Implicit Types (s : state).

(** [update_json.py] reads one variable of the environment, the token. *)
Lemma update_json_ignores_other_variables s (key : string) value :
  key ≠ "GITHUB_TOKEN" ->
  update_json (with_env w key value) s = update_json w s.
Proof.
  intros Hkey. unfold update_json, section_upload.
  replace (getenv (with_env w key value) "GITHUB_TOKEN")
    with (getenv w "GITHUB_TOKEN"); [ reflexivity | ].
  cbn [getenv with_env].
  destruct (String.eqb_spec "GITHUB_TOKEN" key) as [<- | _]; done.
Qed.

(** C8, as the code has it.  Without the repository token every run of
    [update_json.py] ends by raising and makes no call to the repository;
    when the run gets as far as the token check, the error is the one of
    that check and the four local files are by then written, the history
    with its new entry.  Without the service account variable
    [authenticate.py] raises [KeyError] at its first statement and does
    nothing else; [update_json.py] does not read that variable, so the
    variable makes no difference to what it does. *)
Theorem missing_credentials_stop_the_upload s hist :
  (getenv w "GITHUB_TOKEN" = None ->
   ∃ e, (update_json w s).1 = Raise e ∧
        gh_log (update_json w s).2 = gh_log s) ∧
  (getenv w "GITHUB_TOKEN" = None ->
   ee_Initialize w = Ret tt ->
   read_local_history HISTORY_LOCAL s = (Ret (JArr hist), s) ->
   Forall (fun u => fs s !! u.2 ≠ Some NoAccess) uploads ->
   (update_json w s).1
     = Raise (Exn RuntimeError "GITHUB_TOKEN environment variable not set.") ∧
   Forall (fun u => ∃ t, fs (update_json w s).2 !! u.2 = Some (Text t))
          uploads ∧
   ∃ new, fs (update_json w s).2 !! HISTORY_LOCAL =
          Some (Text (JsonText
                  (JArr (Py.slice_from (- HISTORY_MAX) (hist ++ [new])))))) ∧
  (getenv w "EE_SERVICE_ACCOUNT" = None ->
   authenticate w s = (Raise (Exn KeyError "EE_SERVICE_ACCOUNT"), s)) ∧
  (∀ value,
     update_json (with_env w "EE_SERVICE_ACCOUNT" value) s = update_json w s).
Proof.
  split; [ | split; [ | split ] ].
  - intros Habsent. apply update_json_without_token. by rewrite Habsent.
  - intros Habsent Hinit Hread Hfiles.
    destruct (update_json_written w s hist Hinit Hread Hfiles)
      as (s' & pm25 & temp & pm25_1y & temp_1y & Hrun & _ & Hfs).
    cbv zeta in Hrun, Hfs.
    rewrite Hrun, section_upload_without_token by (by rewrite Habsent).
    cbn [fst snd]. split; [ reflexivity | ]. rewrite Hfs. split.
    + unfold uploads.
      repeat apply Forall_cons_2; [ .. | apply Forall_nil_2 ]; cbn [snd];
        repeat (rewrite lookup_insert_eq || rewrite lookup_insert_ne by done);
        eauto.
    + eexists. by rewrite lookup_insert_eq.
  - apply missing_credentials_abort.
  - intros value. by apply update_json_ignores_other_variables.
Qed.

End Credentials.

(** ** Concrete runs for the further properties *)

Lemma append_history_then_read_witness :
  let r := append_history "history.json" Sample.reading HISTORY_MAX
                          Sample.one_entry in
  read_local_history "history.json" r.2
  = (Ret (JArr [Sample.entry 0; Sample.triple]), r.2).
Proof.
  intros r.
  apply (append_history_then_read "history.json" Sample.reading HISTORY_MAX
           Sample.one_entry).
  reflexivity.
Defined.

Lemma append_history_cap_witness :
  (append_history "history.json" Sample.reading 0 Sample.one_entry).1
  = Ret (JArr [Sample.entry 0; Sample.triple]).
Proof.
  apply (append_history_cap "history.json" Sample.reading Sample.one_entry
           [Sample.entry 0] (JStr "T1") (JNum 10) (JNum 20) 0).
  - reflexivity.
  - vm_compute. discriminate.
  - reflexivity.
  - reflexivity.
  - reflexivity.
Defined.

Lemma append_history_missing_key_witness :
  ∃ key,
    append_history "history.json" [("timestamp_utc", JStr "T1")] HISTORY_MAX
                   Sample.one_entry
    = (Raise (Exn KeyError key), Sample.one_entry).
Proof.
  apply (append_history_missing_key "history.json" [("timestamp_utc", JStr "T1")]
           HISTORY_MAX Sample.one_entry [Sample.entry 0]).
  - reflexivity.
  - right. left. reflexivity.
Defined.

Lemma append_history_twice_witness :
  let twice := (append_history "history.json" Sample.reading 200;;
                append_history "history.json" Sample.reading 200) in
  (twice Sample.one_entry).1
  = Ret (JArr [Sample.entry 0; Sample.triple; Sample.triple]).
Proof.
  apply (append_history_twice "history.json" Sample.reading Sample.one_entry
           [Sample.entry 0] (JStr "T1") (JNum 10) (JNum 20) 200).
  - reflexivity.
  - vm_compute. discriminate.
  - reflexivity.
  - reflexivity.
  - reflexivity.
  - lia.
Defined.

Lemma write_local_after_append_witness :
  let r := append_history "history.json" Sample.reading HISTORY_MAX
                          Sample.one_entry in
  write_local "history.json" (JArr [Sample.entry 0; Sample.triple]) r.2
  = (Ret tt, r.2).
Proof.
  intros r.
  apply (write_local_after_append "history.json" Sample.reading HISTORY_MAX
           Sample.one_entry).
  reflexivity.
Defined.

Lemma append_history_unwritable_witness :
  append_history "history.json" Sample.reading HISTORY_MAX
                 Sample.locked_history
  = (Raise (Exn PermissionError "history.json"), Sample.locked_history).
Proof.
  apply (append_history_unwritable "history.json" Sample.reading HISTORY_MAX
           Sample.locked_history (JStr "T1") (JNum 10) (JNum 20));
    reflexivity.
Defined.

Lemma initialize_failure_aborts_witness :
  update_json Sample.no_session Sample.one_entry =
  (Raise (Exn RuntimeError
     "❌ EE failed to initialize. Did you run authenticate.py locally?"),
   Sample.one_entry).
Proof.
  apply (initialize_failure_aborts Sample.no_session Sample.one_entry
           (Exn EEException "Please authorize access")).
  reflexivity.
Defined.

Lemma upload_json_calls_witness :
  gh_log (upload_json Sample.conflicting OUT_CURRENT "current.json"
                      Sample.written).2 =
  [ GetContents "data/current.json";
    UpdateFile "data/current.json" "Auto-update current.json"
               (JsonText (JObj Sample.reading)) "3f2a";
    CreateFile "data/current.json" "Create current.json"
               (JsonText (JObj Sample.reading)) ].
Proof.
  apply (upload_json_calls Sample.conflicting OUT_CURRENT "current.json"
           Sample.written (JsonText (JObj Sample.reading))).
  vm_compute. reflexivity.
Defined.

Lemma upload_json_missing_local_witness :
  upload_json Sample.online OUT_CURRENT "current.json" Sample.one_entry
  = (Raise (Exn FileNotFoundError "current.json"), Sample.one_entry) ∧
  ∃ s', section_upload Sample.online Sample.one_entry
        = (Raise (Exn FileNotFoundError "current.json"), s') ∧
        gh_log s' = [GetRepo REPO_NAME].
Proof.
  destruct (upload_json_missing_local Sample.online OUT_CURRENT "current.json"
              Sample.one_entry) as [Hone Hall].
  split.
  - apply Hone. vm_compute. reflexivity.
  - apply Hall; [ vm_compute | .. ]; reflexivity.
Defined.

Lemma empty_token_is_refused_witness :
  getenv Sample.blank_token "GITHUB_TOKEN" = Some EmptyString ∧
  section_upload Sample.blank_token Sample.written =
  (Raise (Exn RuntimeError "GITHUB_TOKEN environment variable not set."),
   Sample.written).
Proof.
  split; [ reflexivity | ].
  apply (empty_token_is_refused Sample.blank_token Sample.written).
  right. reflexivity.
Defined.

Lemma get_repo_failure_aborts_witness :
  (section_upload Sample.unreachable Sample.written).1
  = Raise (Exn GithubException "401") ∧
  gh_log (section_upload Sample.unreachable Sample.written).2
  = [GetRepo REPO_NAME].
Proof.
  rewrite (get_repo_failure_aborts Sample.unreachable Sample.written
             (Exn GithubException "401")); [ | reflexivity | reflexivity ].
  split; reflexivity.
Defined.

Lemma update_json_sends_four_reductions_witness :
  ee_log (update_json Sample.offline Sample.one_entry).2
  = run_reductions Sample.noon.
Proof.
  apply (update_json_sends_four_reductions Sample.offline Sample.one_entry).
  reflexivity.
Defined.

Lemma update_json_without_token_appends_witness :
  (update_json Sample.offline Sample.one_entry).1
    = Raise (Exn RuntimeError "GITHUB_TOKEN environment variable not set.") ∧
  ∃ new,
    read_local_history HISTORY_LOCAL (update_json Sample.offline Sample.one_entry).2
    = (Ret (JArr (Py.slice_from (- HISTORY_MAX) ([Sample.entry 0] ++ [new]))),
       (update_json Sample.offline Sample.one_entry).2).
Proof.
  apply (update_json_without_token_appends Sample.offline Sample.one_entry
           [Sample.entry 0]).
  - reflexivity.
  - reflexivity.
  - repeat constructor; vm_compute; discriminate.
  - reflexivity.
Defined.

Lemma update_json_completes_witness :
  let final := (update_json Sample.conflicting Sample.one_entry).2 in
  (update_json Sample.conflicting Sample.one_entry).1 = Ret tt ∧
  Forall (fun u => GetContents u.1 ∈ gh_log final) uploads ∧
  last (stdout final) = Some "🎉 All files uploaded." ∧
  ∃ t1 t2 t3 t4,
    fs final !! "current.json" = Some (Text t1) ∧
    fs final !! "annual_pm25.json" = Some (Text t2) ∧
    fs final !! "annual_temperature.json" = Some (Text t3) ∧
    fs final !! HISTORY_LOCAL = Some (Text t4) ∧
    let calls := section_calls Sample.conflicting [] t1 t2 t3 t4 in
    gh_log final = [] ++ calls ∧
    attempted calls OUT_CURRENT t1 ∧
    attempted calls OUT_ANNUAL_PM25 t2 ∧
    attempted calls OUT_ANNUAL_TEMP t3 ∧
    attempted calls OUT_HISTORY t4.
Proof.
  apply (update_json_completes Sample.conflicting Sample.one_entry
           [Sample.entry 0]).
  - reflexivity.
  - reflexivity.
  - repeat constructor; vm_compute; discriminate.
  - reflexivity.
  - intros calls. reflexivity.
Defined.

Lemma current_and_history_agree_witness :
  ∃ ts pm25 temp hist',
    fs (update_json Sample.online Sample.one_entry).2 !! "current.json"
      = Some (Text (JsonText (JObj (current_json ts pm25 temp)))) ∧
    fs (update_json Sample.online Sample.one_entry).2 !! HISTORY_LOCAL
      = Some (Text (JsonText (JArr hist'))) ∧
    last hist' = Some (JObj [("ts", JStr ts); ("pm25", number_or_null pm25);
                             ("temp", number_or_null temp)]).
Proof.
  apply (current_and_history_agree Sample.online Sample.one_entry
           [Sample.entry 0]).
  - reflexivity.
  - reflexivity.
  - repeat constructor; vm_compute; discriminate.
Defined.

Lemma documents_carry_later_readings_witness :
  ∃ pm25 temp pm25_1y temp_1y,
    let files := fs (update_json Sample.online Sample.one_entry).2 in
    files !! "current.json"
      = Some (Text (JsonText (JObj (current_json
                "2026-11-03T09:33:12.123456+00:00Z" pm25 temp)))) ∧
    files !! "annual_pm25.json"
      = Some (Text (JsonText (JObj (annual_pm25_json pm25_1y
                "2026-11-03T09:33:12.123456+00:00Z")))) ∧
    files !! "annual_temperature.json"
      = Some (Text (JsonText (JObj (annual_temp_json temp_1y
                "2026-11-03T09:33:12.123456+00:00Z")))).
Proof.
  destruct (documents_carry_later_readings Sample.online Sample.one_entry
              [Sample.entry 0]) as [_ Hdocs].
  - reflexivity.
  - reflexivity.
  - repeat constructor; vm_compute; discriminate.
  - exact Hdocs.
Defined.

Lemma fields_follow_their_reduction_witness :
  ∃ current,
    (section_current Sample.online (EE.Date "2026-11-03") Sample.fresh).1
      = Ret current ∧
    Py.get current "pm25_ugm3" = Some (JNum 300000000000) ∧
    Py.get current "temperature_c" = Some (JNum 26.850000000000023).
Proof.
  destruct (fields_follow_their_reduction Sample.online (EE.Date "2026-11-03")
              Sample.fresh "temperature_2m" 300%float [])
    as [(current & Hret & Hpm & Htemp) _].
  exists current. split; [ exact Hret | ].
  split; [ apply Hpm | apply Htemp ]; reflexivity.
Defined.

Lemma update_json_bad_history_aborts_witness :
  ∃ e, (update_json Sample.online Sample.object_history).1 = Raise e ∧
       exn_kind e = AttributeError ∧
       fs (update_json Sample.online Sample.object_history).2
         = fs Sample.object_history ∧
       gh_log (update_json Sample.online Sample.object_history).2 = [].
Proof.
  apply (update_json_bad_history_aborts Sample.online Sample.object_history
           (JObj [("a", JInt 1)])); reflexivity.
Defined.

(** ** Concrete runs without credentials *)

(** C8, as stated, fails: a run without the token does raise before it
    publishes, but not without output, since its local files are written
    by then. *)
Lemma missing_token_leaves_local_output :
  ¬ (∀ (w : world) (s : state),
       getenv w "GITHUB_TOKEN" = None ∨ getenv w "EE_SERVICE_ACCOUNT" = None ->
       ∃ e, (update_json w s).1 = Raise e ∧
            gh_log (update_json w s).2 = gh_log s ∧
            fs (update_json w s).2 = fs s).
Proof.
  intros H.
  destruct (H Sample.offline Sample.fresh (or_introl eq_refl))
    as (e & _ & _ & Hfs).
  apply (f_equal (fun files : gmap string file =>
                    match files !! "history.json" with
                    | Some _ => true
                    | None => false
                    end)) in Hfs.
  vm_compute in Hfs. discriminate Hfs.
Qed.

(** With the service account variable unset and the token set, a run of
    [update_json.py] whose session opens returns and has published. *)
Lemma update_json_without_service_account_sample :
  let r := update_json Sample.online Sample.fresh in
  getenv Sample.online "EE_SERVICE_ACCOUNT" = None ∧
  r.1 = Ret tt ∧
  Exists (fun c => publishes c = true) (gh_log r.2).
Proof.
  split; [ reflexivity | ]. split; [ vm_compute; reflexivity | ].
  do 2 apply Exists_cons_tl. apply Exists_cons_hd. reflexivity.
Qed.

Lemma missing_credentials_stop_the_upload_witness :
  let r := update_json Sample.offline Sample.one_entry in
  (∃ e, r.1 = Raise e ∧ gh_log r.2 = []) ∧
  (r.1 = Raise (Exn RuntimeError "GITHUB_TOKEN environment variable not set.") ∧
   Forall (fun u => ∃ t, fs r.2 !! u.2 = Some (Text t)) uploads ∧
   ∃ new, fs r.2 !! HISTORY_LOCAL =
          Some (Text (JsonText
                  (JArr (Py.slice_from (- HISTORY_MAX)
                           ([Sample.entry 0] ++ [new])))))) ∧
  authenticate Sample.offline Sample.one_entry
  = (Raise (Exn KeyError "EE_SERVICE_ACCOUNT"), Sample.one_entry).
Proof.
  intros r.
  destruct (missing_credentials_stop_the_upload Sample.offline
              Sample.one_entry [Sample.entry 0])
    as (Hraise & Hlocal & Hauth & _).
  split; [ apply Hraise; reflexivity | ].
  split; [ | apply Hauth; reflexivity ].
  apply Hlocal; try reflexivity.
  repeat constructor; vm_compute; discriminate.
Defined.
